(** * Attrition Desktop: configuration store, download pipeline and startup

    A shallow embedding of [configHelpers.js] and of the IPC handlers and the
    startup branch of [main.js].  JavaScript code that can throw is written
    in a small state-and-exception monad over an explicit [World] (the
    configuration file, the rest of the filesystem, the two windows and the
    trace of interactions with the outside); what the outside answers
    (network, dialogs, cookie jar, the unzipper library) is an [Env]. *)

From Stdlib Require Import ZArith String Ascii List Bool DecimalString.
From stdpp Require Import gmap strings list fin_maps.

Import ListNotations.
Local Open Scope string_scope.
Local Open Scope Z_scope.

(** ** JavaScript values *)

(** The primitive values that cross the IPC boundary or sit in a field of
    the configuration record. *)
Inductive JsValue : Type :=
  | JUndefined
  | JNull
  | JBool (b : bool)
  | JNum (n : Z)
  | JStr (s : string).

#[global] Instance JsValue_eq_dec : EqDecision JsValue.
Proof. solve_decision. Defined.

(** [ToBoolean]. *)
Definition truthy (v : JsValue) : bool :=
  match v with
  | JUndefined | JNull => false
  | JBool b => b
  | JNum n => negb (n =? 0)
  | JStr s => negb (String.eqb s "")
  end.

(** [a || b] on values. *)
Definition jsOr (a b : JsValue) : JsValue := if truthy a then a else b.

Definition string_of_Z (n : Z) : string := NilZero.string_of_int (Z.to_int n).

(** [Number.isSafeInteger]: the integers a JavaScript number holds exactly
    and prints digit by digit. *)
Definition safeInteger (v : JsValue) : Prop :=
  match v with
  | JNum n => Z.abs n <= 9007199254740991
  | _ => True
  end.

(** [ToString], as a template literal applies it; for a number, on the safe
    integers (beyond them JavaScript rounds, and prints an exponent from
    1e21 on). *)
Definition toStr (v : JsValue) : string :=
  match v with
  | JUndefined => "undefined"
  | JNull => "null"
  | JBool true => "true"
  | JBool false => "false"
  | JNum n => string_of_Z n
  | JStr s => s
  end.

(** [hay.includes(needle)]. *)
Fixpoint includes (needle hay : string) : bool :=
  String.prefix needle hay ||
  match hay with
  | EmptyString => false
  | String _ rest => includes needle rest
  end.

(** [parseInt(s)] with no radix argument: leading white space, an optional
    sign, an optional [0x] prefix, then the longest run of digits; [None]
    stands for [NaN]. *)
Definition isWhite (c : ascii) : bool :=
  let n := nat_of_ascii c in
  (n =? 32)%nat || ((9 <=? n)%nat && (n <=? 13)%nat).

Fixpoint skipWhite (s : string) : string :=
  match s with
  | String c rest => if isWhite c then skipWhite rest else s
  | EmptyString => s
  end.

Definition digitOf (radix : Z) (c : ascii) : option Z :=
  let n := Z.of_nat (nat_of_ascii c) in
  let d := if (48 <=? n) && (n <=? 57) then Some (n - 48)
           else if (97 <=? n) && (n <=? 122) then Some (n - 87)
           else if (65 <=? n) && (n <=? 90) then Some (n - 55)
           else None in
  match d with
  | Some k => if k <? radix then Some k else None
  | None => None
  end.

Fixpoint parseDigits (radix : Z) (s : string) (acc : option Z) : option Z :=
  match s with
  | EmptyString => acc
  | String c rest =>
      match digitOf radix c with
      | Some d => parseDigits radix rest (Some (radix * default 0 acc + d))
      | None => acc
      end
  end.

Definition parseInt (s : string) : option Z :=
  let s1 := skipWhite s in
  let '(sign, s2) :=
    match s1 with
    | String "-"%char rest => (-1, rest)
    | String "+"%char rest => (1, rest)
    | _ => (1, s1)
    end in
  let '(radix, s3) :=
    match s2 with
    | String "0"%char (String "x"%char rest) => (16, rest)
    | String "0"%char (String "X"%char rest) => (16, rest)
    | _ => (10, s2)
    end in
  Z.mul sign <$> parseDigits radix s3 None.

(** [path.posix.join(a, b)]: the non-empty arguments joined by a slash, then
    normalised ([.] and empty segments dropped, [..] resolved, a trailing
    slash kept). *)
Fixpoint splitSlash (s : string) : list string :=
  match s with
  | EmptyString => [EmptyString]
  | String c rest =>
      if Ascii.eqb c "/"%char then EmptyString :: splitSlash rest
      else match splitSlash rest with
           | seg :: segs => String c seg :: segs
           | [] => [String c EmptyString]
           end
  end.

(** The segments kept so far are in [acc], last first. *)
Fixpoint normalizeSegments (allowAboveRoot : bool) (segs acc : list string)
    : list string :=
  match segs with
  | [] => rev acc
  | seg :: rest =>
      if String.eqb seg "" || String.eqb seg "." then
        normalizeSegments allowAboveRoot rest acc
      else if String.eqb seg ".." then
        match acc with
        | top :: acc' =>
            if String.eqb top ".."
            then normalizeSegments allowAboveRoot rest (seg :: acc)
            else normalizeSegments allowAboveRoot rest acc'
        | [] =>
            if allowAboveRoot
            then normalizeSegments allowAboveRoot rest [seg]
            else normalizeSegments allowAboveRoot rest []
        end
      else normalizeSegments allowAboveRoot rest (seg :: acc)
  end.

Definition posixNormalize (p : string) : string :=
  if String.eqb p "" then "."
  else
    let segs := splitSlash p in
    let isAbsolute := String.eqb (hd "x" segs) "" in
    let trailingSeparator := String.eqb (default "x" (last segs)) "" in
    let body := String.concat "/" (normalizeSegments (negb isAbsolute) segs []) in
    if String.eqb body "" then
      if isAbsolute then "/" else if trailingSeparator then "./" else "."
    else
      let body' := if trailingSeparator then body ++ "/" else body in
      if isAbsolute then "/" ++ body' else body'.

Definition posixJoin (a b : string) : string :=
  if String.eqb a "" then (if String.eqb b "" then "." else posixNormalize b)
  else if String.eqb b "" then posixNormalize a
  else posixNormalize (a ++ "/" ++ b).

(** ** Errors, the world and the monad *)

(** A thrown [Error]; only its [message] is ever inspected. *)
Record JsError : Type := Error { message : string }.

(** What [JSON.parse] of the configuration file yields: an object with named
    fields, [null], or some other JSON value (a number, a string, a boolean,
    an array) that has no named fields to read or to keep. *)
Inductive Data : Type :=
  | DObject (fields : gmap string JsValue)
  | DNull
  | DNonRecord.

Inductive ConfigEntry : Type :=
  | Unreadable            (* the file exists, fs.readFileSync throws *)
  | Corrupt               (* the text is not JSON, JSON.parse throws *)
  | Doc (d : Data).       (* the text is JSON.stringify(d, null, 2) *)

Inductive Node : Type :=
  | Dir
  | File (content : string).

Record Window : Type := mkWindow {
  loaded : string;         (* what loadURL / loadFile was given *)
  visible : bool;
  destroyed : bool
}.

(** Interactions with the outside, most recent last. *)
Inductive Event : Type :=
  | EvOpenDialog (defaultPath : string)
  | EvMessageBox (title : string)
  | EvCookiesGet (url : string)
  | EvFetch (url : string) (cookie : option string)
  | EvSleep (ms : Z).

Record World : Type := mkWorld {
  configFile : option ConfigEntry;  (* config.json under userData *)
  configWritable : bool;            (* false: fs.writeFileSync on it throws *)
  nodes : gmap string Node;         (* every other path *)
  undeletable : gset string;        (* fs.unlinkSync throws on these (EPERM, EBUSY) *)
  uncreatable : gset string;        (* these cannot be created (EACCES): fs.mkdirSync
                                       throws, a write stream fails to open *)
  mainWindow : option Window;
  configWindow : option Window;
  trace : list Event
}.

(** How a call ends: it throws (a promise rejects), it returns (a promise
    resolves), or it never comes back: the promise it awaits is never
    settled. *)
Inductive Completion (A : Type) : Type :=
  | Throw (e : JsError)
  | Return (a : A)
  | Never.
Arguments Throw {A} e.
Arguments Return {A} a.
Arguments Never {A}.

Definition M (A : Type) : Type := World -> Completion A * World.

Definition ret {A} (a : A) : M A := fun w => (Return a, w).

Definition throw {A} (msg : string) : M A := fun w => (Throw (Error msg), w).

Definition rethrow {A} (e : JsError) : M A := fun w => (Throw e, w).

(** [await new Promise(...)] on a promise that nothing settles. *)
Definition never {A} : M A := fun w => (Never, w).

Definition bind {A B} (m : M A) (k : A -> M B) : M B :=
  fun w =>
    match m w with
    | (Return a, w') => k a w'
    | (Throw e, w') => (Throw e, w')
    | (Never, w') => (Never, w')
    end.

(** [try { m } catch (error) { h error }]. *)
Definition tryCatch {A} (m : M A) (h : JsError -> M A) : M A :=
  fun w =>
    match m w with
    | (Return a, w') => (Return a, w')
    | (Throw e, w') => h e w'
    | (Never, w') => (Never, w')
    end.

Definition gets {A} (f : World -> A) : M A := fun w => (Return (f w), w).

Definition modify (f : World -> World) : M unit := fun w => (Return tt, f w).

(** An awaited promise, or a call that returns or throws. *)
Definition settle {A} (r : JsError + A) : M A :=
  match r with
  | inl e => rethrow e
  | inr a => ret a
  end.

Declare Scope js_scope.
Delimit Scope js_scope with js.
Notation "x <- m ;; k" := (bind m (fun x => k))
  (at level 100, m at next level, right associativity) : js_scope.
Notation "m ;;; k" := (bind m (fun _ => k))
  (at level 100, right associativity) : js_scope.
Local Open Scope js_scope.

Definition setConfigFile (c : option ConfigEntry) (w : World) : World :=
  mkWorld c (configWritable w) (nodes w) (undeletable w) (uncreatable w)
          (mainWindow w) (configWindow w) (trace w).

Definition setNodes (n : gmap string Node) (w : World) : World :=
  mkWorld (configFile w) (configWritable w) n (undeletable w) (uncreatable w)
          (mainWindow w) (configWindow w) (trace w).

Definition setMainWindow (x : option Window) (w : World) : World :=
  mkWorld (configFile w) (configWritable w) (nodes w) (undeletable w)
          (uncreatable w) x (configWindow w) (trace w).

Definition setConfigWindow (x : option Window) (w : World) : World :=
  mkWorld (configFile w) (configWritable w) (nodes w) (undeletable w)
          (uncreatable w) (mainWindow w) x (trace w).

Definition emit (e : Event) : M unit :=
  modify (fun w =>
    mkWorld (configFile w) (configWritable w) (nodes w) (undeletable w)
            (uncreatable w) (mainWindow w) (configWindow w) (trace w ++ [e])).

(** ** configHelpers.js *)

Definition DEFAULT_URL : string := "https://blancpaw-gt.uk".

(** [fs.existsSync(getConfigPath())]. *)
Definition configExists (w : World) : bool :=
  match configFile w with Some _ => true | None => false end.

(** [JSON.parse(fs.readFileSync(configPath, 'utf8'))]. *)
Definition readConfigData : M Data :=
  fun w =>
    match configFile w with
    | None => (Throw (Error "ENOENT: no such file or directory"), w)
    | Some Unreadable => (Throw (Error "EACCES: permission denied"), w)
    | Some Corrupt => (Throw (Error "Unexpected token in JSON"), w)
    | Some (Doc d) => (Return d, w)
    end.

(** [data.key]. *)
Definition getField (d : Data) (key : string) : M JsValue :=
  match d with
  | DObject m => ret (default JUndefined (m !! key))
  | DNull => throw ("Cannot read properties of null (reading '" ++ key ++ "')")
  | DNonRecord => ret JUndefined
  end.

(** [data.key = v]; on a value without named fields the assignment is
    dropped (the module is not in strict mode), on [null] it throws. *)
Definition setField (d : Data) (key : string) (v : JsValue) : M Data :=
  match d with
  | DObject m => ret (DObject (<[key := v]> m))
  | DNull => throw ("Cannot set properties of null (setting '" ++ key ++ "')")
  | DNonRecord => ret DNonRecord
  end.

(** What is read back after [JSON.stringify]: a field whose value is
    [undefined] is not written. *)
Definition stringified (d : Data) : Data :=
  match d with
  | DObject m => DObject (filter (fun kv => kv.2 <> JUndefined) m)
  | _ => d
  end.

(** [fs.writeFileSync(configPath, JSON.stringify(config, null, 2))]. *)
Definition writeConfigData (d : Data) : M unit :=
  fun w =>
    if configWritable w
    then (Return tt, setConfigFile (Some (Doc (stringified d))) w)
    else (Throw (Error "EACCES: permission denied"), w).

Definition readSavedUrl : M JsValue :=
  r <- tryCatch
         (exists_ <- gets configExists ;;
          if (exists_ : bool)
          then data <- readConfigData ;;
               url <- getField data "url" ;;
               ret (Some (jsOr url (JStr DEFAULT_URL)))
          else ret None)
         (fun _ => ret None) ;;
  match r with
  | Some v => ret v
  | None => ret (JStr DEFAULT_URL)
  end.

Definition saveUrl (url : JsValue) : M bool :=
  tryCatch
    (let config := DObject {[ "url" := url ]} in
     writeConfigData config ;;;
     ret true)
    (fun _ => ret false).

Definition saveConfig (config : Data) : M bool :=
  tryCatch
    (writeConfigData config ;;;
     ret true)
    (fun _ => ret false).

Definition readSavedConfig : M Data :=
  r <- tryCatch
         (exists_ <- gets configExists ;;
          if (exists_ : bool)
          then data <- readConfigData ;;
               ret (Some data)
          else ret None)
         (fun _ => ret None) ;;
  match r with
  | Some d => ret d
  | None => ret (DObject ∅)
  end.

Definition getConfiguredLiveryDirectory : M JsValue :=
  config <- readSavedConfig ;;
  liveryDirectory <- getField config "liveryDirectory" ;;
  if truthy liveryDirectory then ret liveryDirectory
  else
    documentsFolder <- getField config "documentsFolder" ;;
    ret (jsOr documentsFolder JNull).

Definition saveConfiguredLiveryDirectory (directory : JsValue) : M bool :=
  tryCatch
    (config <- readSavedConfig ;;
     config' <- setField config "liveryDirectory" directory ;;
     saveConfig config')
    (fun _ => ret false).

Definition saveMinimizeToTrayPreference (shouldMinimize : JsValue) : M bool :=
  tryCatch
    (config <- readSavedConfig ;;
     config' <- setField config "minimizeToTray" shouldMinimize ;;
     saveConfig config')
    (fun _ => ret false).

(** ** The outside *)

Inductive Platform : Type := Win32 | Linux | Darwin.

(** What [dialog.showOpenDialog] resolves to. *)
Record OpenDialogResult : Type := mkOpenDialogResult {
  dialogCanceled : bool;
  filePaths : list string
}.

(** A [fetch] response: status line, the two headers the code reads, and the
    body as the chunks [reader.read()] delivers, followed either by the end
    of the stream or by an error ([bodyFault]). *)
Record Response : Type := mkResponse {
  status : Z;
  statusText : string;
  contentType : option string;
  contentLength : option string;
  bodyChunks : list string;
  bodyFault : option JsError
}.

(** [response.ok]. *)
Definition ok (r : Response) : bool := (200 <=? status r) && (status r <=? 299).

(** [response.body === null]: among the 2xx, the statuses that carry no
    body. *)
Definition nullBody (r : Response) : bool :=
  (status r =? 204) || (status r =? 205).

(** [await response.text()]; a null body reads as the empty text. *)
Definition responseText (r : Response) : JsError + string :=
  if nullBody r then inr ""
  else
    match bodyFault r with
    | Some e => inl e
    | None => inr (String.concat "" (bodyChunks r))
    end.

Record Env : Type := mkEnv {
  platform : Platform;                                (* process.platform *)
  homeDir : string;                                   (* app.getPath('home') *)
  tempDir : string;                                   (* app.getPath('temp') *)
  pathJoin : string -> string -> string;              (* path.join, of that platform *)
  showOpenDialog : string -> JsError + OpenDialogResult;    (* by defaultPath *)
  showMessageBox : string -> JsError + Z;             (* by title; the button index *)
  cookiesGet : string -> JsError + list (string * string);  (* by url; name, value *)
  fetch : nat -> string -> option string -> JsError + Response;
                                    (* by attempt, url and Cookie header *)
  unzip : string -> string -> list (string * Node) * option JsError
                                    (* unzipper.Extract, by archive content and
                                       target directory: the files and
                                       directories it writes, by path, then
                                       the error if any *)
}.

(** ** configHelpers.js, continued: the directory resolver *)

Definition ACC : string := "Assetto Corsa Competizione".

Definition getAutoDetectDocumentsPath (env : Env) : string :=
  match platform env with
  | Win32 => pathJoin env (pathJoin env (homeDir env) "Documents") ACC
  | Linux =>
      fold_left (pathJoin env)
        [".steam"; "steam"; "steamapps"; "compatdata"; "805550"; "pfx";
         "drive_c"; "users"; "steamuser"; "Documents"; ACC]
        (homeDir env)
  | Darwin => pathJoin env (pathJoin env (homeDir env) "Documents") ACC
  end.

(** [fs.existsSync] answers [false] for anything that is not a path. *)
Definition validateDirectory (dirPath : JsValue) : M bool :=
  gets (fun w =>
    match dirPath with
    | JStr p => match nodes w !! p with Some Dir => true | _ => false end
    | _ => false
    end).

(** [fs.mkdirSync(p, { recursive: true })]; ancestors are not tracked. *)
Definition mkdirSync (p : JsValue) : M unit :=
  match p with
  | JStr s =>
      fun w =>
        if bool_decide (s ∈ uncreatable w)
        then (Throw (Error ("EACCES: permission denied, mkdir '" ++ s ++ "'")), w)
        else match nodes w !! s with
             | Some (File _) =>
                 (Throw (Error ("EEXIST: file already exists, mkdir '" ++ s ++ "'")), w)
             | _ => (Return tt, setNodes (<[s := Dir]> (nodes w)) w)
             end
  | _ => throw "The path argument must be of type string"
  end.

(** [fs.unlinkSync(p)]. *)
Definition unlinkSync (p : string) : M unit :=
  fun w =>
    if bool_decide (p ∈ undeletable w)
    then (Throw (Error ("EPERM: operation not permitted, unlink '" ++ p ++ "'")), w)
    else match nodes w !! p with
         | Some (File _) => (Return tt, setNodes (delete p (nodes w)) w)
         | Some Dir =>
             (Throw (Error ("EISDIR: illegal operation on a directory, unlink '" ++ p ++ "'")), w)
         | None =>
             (Throw (Error ("ENOENT: no such file or directory, unlink '" ++ p ++ "'")), w)
         end.

(** What [selectDocumentsFolder] resolves to: [{ canceled: true }] or
    [{ path, canceled: false }]. *)
Record FolderResult : Type := mkFolderResult {
  path : JsValue;
  canceled : bool
}.

Definition folderCanceled : FolderResult := mkFolderResult JUndefined true.

Definition selectDocumentsFolder (env : Env) : M FolderResult :=
  tryCatch
    (let autoDetectPath := getAutoDetectDocumentsPath env in
     valid <- validateDirectory (JStr autoDetectPath) ;;
     let defaultPath := if (valid : bool) then autoDetectPath else homeDir env in
     emit (EvOpenDialog defaultPath) ;;;
     result <- settle (showOpenDialog env defaultPath) ;;
     match filePaths result with
     | [] => ret folderCanceled
     | selectedFolder :: _ =>
         if dialogCanceled result then ret folderCanceled
         else
           let customsSubfolder := pathJoin env selectedFolder "Customs" in
           hasCustoms <- validateDirectory (JStr customsSubfolder) ;;
           if (hasCustoms : bool)
           then ret (mkFolderResult (JStr customsSubfolder) false)
           else
             emit (EvMessageBox "Customs Folder Not Found") ;;;
             response <- settle (showMessageBox env "Customs Folder Not Found") ;;
             if response =? 0
             then mkdirSync (JStr customsSubfolder) ;;;
                  ret (mkFolderResult (JStr customsSubfolder) false)
             else ret folderCanceled
     end)
    (fun error => throw ("Failed to select documents folder: " ++ message error)).

(** ** main.js: windows and startup *)

Definition createMainWindow : M unit :=
  savedUrl <- readSavedUrl ;;
  modify (setMainWindow (Some (mkWindow (toStr savedUrl) true false))).

Definition createConfigWindow : M unit :=
  modify (setConfigWindow (Some (mkWindow "config.html" true false))).

(** The end of [initializeApp], once the handlers are registered. *)
Definition initializeApp : M unit :=
  savedUrl <- readSavedUrl ;;
  exists_ <- gets configExists ;;
  if bool_decide (savedUrl = JStr "https://blancpaw-gt.uk") && negb exists_
  then createConfigWindow
  else createMainWindow.

(** ** main.js: the configuration handlers *)

(** [mainWindow.loadURL(readSavedUrl())] when a main window exists. *)
Definition reloadMainWindow : M unit :=
  mw <- gets mainWindow ;;
  match mw with
  | Some win =>
      savedUrl <- readSavedUrl ;;
      modify (setMainWindow (Some (mkWindow (toStr savedUrl) (visible win) (destroyed win))))
  | None => ret tt
  end.

Definition handle_save_url (url : JsValue) : M bool :=
  success <- saveUrl url ;;
  (if (success : bool) then reloadMainWindow else ret tt) ;;;
  ret success.

Definition handle_config_saved (url : JsValue) : M bool :=
  existingConfig <- readSavedConfig ;;
  existingConfig' <- setField existingConfig "url" url ;;
  success <- saveConfig existingConfig' ;;
  (if (success : bool)
   then
     mw <- gets mainWindow ;;
     (match mw with
      | Some _ => reloadMainWindow
      | None => createMainWindow
      end) ;;;
     modify (setConfigWindow None)
   else ret tt) ;;;
  ret success.

Definition handle_select_documents_folder (env : Env) : M FolderResult :=
  result <- selectDocumentsFolder env ;;
  (if negb (canceled result)
   then
     config <- readSavedConfig ;;
     config' <- setField config "documentsFolder" (path result) ;;
     saveConfig config' ;;;
     ret tt
   else ret tt) ;;;
  ret result.

(** ** main.js: the [download-event-liveries] handler *)

(** The object the handler resolves to. *)
Record Result : Type := mkResult {
  success : bool;
  resultMessage : string;
  targetDirectory : option JsValue
}.

Definition MSG_MISSING : string :=
  "Missing required parameters: eventId and baseUrl".
Definition MSG_NO_DIRECTORY : string :=
  "No directory selected for liveries extraction".
Definition MSG_AUTH_HTML : string :=
  "Authentication required or access denied. Received HTML page instead of ZIP file. Please ensure you're logged into the web application.".
Definition MSG_HOMEPAGE : string :=
  "Failed to download ZIP: Server returned homepage instead of livery archive. This typically means you need to be logged into the web application.".

(** [fs.createWriteStream(destPath)]; the answer tells whether the stream
    opens.  When it does, the file is created or truncated.  When it does
    not (the path is a directory or cannot be created), nothing is thrown:
    the failure is an ['error'] event on the stream, which has no listener,
    and the path is left as it was. *)
Definition createWriteStream (destPath : string) : M bool :=
  fun w =>
    if bool_decide (destPath ∈ uncreatable w) then (Return false, w)
    else match nodes w !! destPath with
         | Some Dir => (Return false, w)
         | _ => (Return true, setNodes (<[destPath := File ""]> (nodes w)) w)
         end.

(** [writer.write(value)], with the wait for ['drain'] when it answers
    [false].  An open stream takes the chunk, here as written at once (the
    queue of the stream and the unawaited [writer.end()] are not modelled).
    A stream that failed to open answers [false] and never drains. *)
Definition writeChunk (opened : bool) (destPath chunk : string) : M unit :=
  if opened
  then modify (fun w =>
         setNodes
           (alter (fun n => match n with
                            | File c => File (c ++ chunk)
                            | Dir => Dir
                            end) destPath (nodes w)) w)
  else never.

(** [pump]: every chunk read is written; a failing [reader.read()] throws
    after the chunks that came before it. *)
Fixpoint pump (opened : bool) (destPath : string) (chunks : list string)
    (fault : option JsError) : M unit :=
  match chunks with
  | chunk :: rest =>
      writeChunk opened destPath chunk ;;; pump opened destPath rest fault
  | [] => match fault with
          | Some e => rethrow e
          | None => ret tt
          end
  end.

Definition cookieHeader (cookieString : string) : option string :=
  if String.eqb cookieString "" then None else Some cookieString.

(** The body of the [try] of one iteration of the retry loop. *)
Definition downloadAttempt (env : Env) (cookieString url destPath : string)
    (attempt : nat) : M string :=
  emit (EvFetch url (cookieHeader cookieString)) ;;;
  response <- settle (fetch env attempt url (cookieHeader cookieString)) ;;
  (if negb (ok response)
   then
     if (status response =? 401) || (status response =? 403)
     then throw ("Authentication required: " ++ string_of_Z (status response)
                 ++ " " ++ statusText response
                 ++ ". Please ensure you're logged into the web application.")
     else if status response =? 404
     then throw ("File not found: " ++ string_of_Z (status response)
                 ++ " " ++ statusText response)
     else throw ("Failed to download: " ++ string_of_Z (status response)
                 ++ " " ++ statusText response)
   else ret tt) ;;;
  let contentType := default "" (contentType response) in
  let contentLength := contentLength response in
  (if includes "text/html" contentType
      && match contentLength with
         | Some len =>
             negb (String.eqb len "")
             && match parseInt len with Some n => 1000 <? n | None => false end
         | None => false
         end
   then
     text <- settle (responseText response) ;;
     if includes "redirect" text || includes "login" text || includes "401" text
        || includes "403" text || includes "Unauthorized" text
     then throw MSG_AUTH_HTML
     else if includes "<html" text && includes "<title>" text && includes "Home" text
     then throw MSG_HOMEPAGE
     else throw ("Failed to download ZIP: Received HTML content instead of ZIP file. Status: "
                 ++ string_of_Z (status response))
   else ret tt) ;;;
  writer <- createWriteStream destPath ;;
  (if nullBody response
   then throw "Cannot read properties of null (reading 'getReader')"
   else ret tt) ;;;
  pump writer destPath (bodyChunks response) (bodyFault response) ;;;
  ret destPath.

(** The [for] loop from [attempt] on, with [remaining] iterations left;
    [None] is the [undefined] of a loop that ends without a [return]. *)
Fixpoint retryFrom (env : Env) (cookieString url destPath : string)
    (maxRetries remaining attempt : nat) : M (option string) :=
  match remaining with
  | O => ret None
  | S remaining' =>
      r <- tryCatch
             (p <- downloadAttempt env cookieString url destPath attempt ;;
              ret (Some p))
             (fun error =>
                if (attempt =? maxRetries)%nat
                then throw ("Failed to download after "
                            ++ string_of_Z (Z.of_nat maxRetries)
                            ++ " attempts: " ++ message error)
                else
                  let delay := 2 ^ Z.of_nat attempt * 1000 in
                  emit (EvSleep delay) ;;;
                  ret None) ;;
      match r with
      | Some p => ret (Some p)
      | None => retryFrom env cookieString url destPath maxRetries remaining' (S attempt)
      end
  end.

Definition downloadFileWithRetry (env : Env) (cookieString url destPath : string)
    (maxRetries : nat) : M (option string) :=
  retryFrom env cookieString url destPath maxRetries maxRetries 1.

(** [fs.createReadStream(zipPath).pipe(unzipper.Extract({ path }))], awaited
    until [close] or [error] of the extracting stream.  When the archive
    cannot be read (it is not a file), the ['error'] is the read stream's,
    which has no listener and is not passed on by [pipe]: neither event
    comes and the wait never ends. *)
Definition extract (env : Env) (zipPath : string) (extractDir : JsValue) : M unit :=
  match extractDir with
  | JStr dir =>
      node <- gets (fun w => nodes w !! zipPath) ;;
      match node with
      | Some (File content) =>
          let '(written, failure) := unzip env content dir in
          modify (fun w =>
            setNodes
              (fold_left (fun m e => <[e.1 := e.2]> m) written (nodes w)) w) ;;;
          match failure with
          | Some e => rethrow e
          | None => ret tt
          end
      | _ => never
      end
  | _ => throw "The path argument must be of type string"
  end.

(** The session cookies of the main window, as one header value. *)
Definition collectCookies (env : Env) (baseUrl : JsValue) : M string :=
  mw <- gets mainWindow ;;
  match mw with
  | Some win =>
      if negb (destroyed win)
      then
        tryCatch
          (emit (EvCookiesGet (toStr baseUrl)) ;;;
           cookies <- settle (cookiesGet env (toStr baseUrl)) ;;
           ret (String.concat "; " (map (fun c => c.1 ++ "=" ++ c.2) cookies)))
          (fun _ => ret "")
      else ret ""
  | None => ret ""
  end.

Definition promptForDirectory (env : Env) : M JsValue :=
  folderResult <- selectDocumentsFolder env ;;
  if canceled folderResult
  then throw MSG_NO_DIRECTORY
  else ret (path folderResult).

Definition zipPathOf (env : Env) (eventId : JsValue) : string :=
  pathJoin env (tempDir env) ("liveries_event_" ++ toStr eventId ++ ".zip").

(** The body of the handler's outer [try]. *)
Definition downloadEventLiveriesBody (env : Env) (eventId baseUrl : JsValue)
    : M Result :=
  (if negb (truthy eventId) || negb (truthy baseUrl)
   then throw MSG_MISSING
   else ret tt) ;;;
  let downloadUrl := toStr baseUrl ++ "/events/" ++ toStr eventId ++ "/liveries" in
  configured <- getConfiguredLiveryDirectory ;;
  documentsDir <-
    (if negb (truthy configured)
     then promptForDirectory env
     else
       valid <- validateDirectory configured ;;
       if negb valid
       then promptForDirectory env
       else ret configured) ;;
  let customsDir := documentsDir in
  mkdirSync customsDir ;;;
  let zipPath := zipPathOf env eventId in
  cookieString <- collectCookies env baseUrl ;;
  downloadFileWithRetry env cookieString downloadUrl zipPath 3 ;;;
  let extractDir := customsDir in
  tryCatch
    (extract env zipPath extractDir ;;;
     unlinkSync zipPath ;;;
     ret (mkResult true
            ("Liveries downloaded and extracted to " ++ toStr extractDir)
            (Some extractDir)))
    (fun extractionError =>
       tryCatch (unlinkSync zipPath) (fun _ => ret tt) ;;;
       throw ("Failed to extract ZIP file: " ++ message extractionError)).

Definition handle_download_event_liveries (env : Env) (eventId baseUrl : JsValue)
    : M Result :=
  tryCatch
    (downloadEventLiveriesBody env eventId baseUrl)
    (fun error => ret (mkResult false (message error) None)).

(** ** Vocabulary of the statements, and the scenarios they are tried on *)

(** The [url] field of the stored record, when the file holds a record. *)
Definition urlField (w : World) : option JsValue :=
  match configFile w with
  | Some (Doc (DObject m)) => m !! "url"
  | _ => None
  end.

(** The record a later [readSavedConfig] sees. *)
Definition storedRecord (w : World) : Data :=
  match configFile w with
  | Some (Doc d) => d
  | _ => DObject ∅
  end.

(** A parsed JSON object has no field whose value is [undefined]. *)
Definition parsed (m : gmap string JsValue) : Prop :=
  forall k, m !! k <> Some JUndefined.

Definition worldWithConfig (c : option ConfigEntry) : World :=
  mkWorld c true ∅ ∅ ∅ None None [].

Definition priorRecord : gmap string JsValue :=
  {[ "liveryDirectory" := JStr "/acc/Customs"; "minimizeToTray" := JBool true ]}.

(** The user picks [/home/u/ACC], which has a [Customs] folder. *)
Definition envPick : Env :=
  mkEnv Linux "/home/u" "/tmp" posixJoin
    (fun _ => inr (mkOpenDialogResult false ["/home/u/ACC"]))
    (fun _ => inr 1)
    (fun _ => inr [])
    (fun _ _ _ => inl (Error "fetch failed"))
    (fun _ _ => ([], None)).

Definition worldPick (c : option ConfigEntry) : World :=
  mkWorld c true {[ "/home/u/ACC/Customs" := Dir ]} ∅ ∅ None None [].

Inductive LifecycleState : Type := NoWindow | ConfigOnly | MainVisible | MainHidden.

Definition stateOf (w : World) : LifecycleState :=
  match mainWindow w with
  | Some win => if visible win then MainVisible else MainHidden
  | None =>
      match configWindow w with
      | Some _ => ConfigOnly
      | None => NoWindow
      end
  end.

(** A world at launch: no window yet. *)
Definition atLaunch (w : World) : World :=
  setMainWindow None (setConfigWindow None w).

(** The world after one more interaction. *)
Definition logged (e : Event) (w : World) : World :=
  mkWorld (configFile w) (configWritable w) (nodes w) (undeletable w)
          (uncreatable w) (mainWindow w) (configWindow w) (trace w ++ [e]).

Definition loginPage : Response :=
  mkResponse 200 "OK" (Some "text/html; charset=utf-8") (Some "2048")
    ["<html><body>Please "; "login to continue</body></html>"] None.

Definition envLoginPage : Env :=
  mkEnv Linux "/home/u" "/tmp" posixJoin
    (fun _ => inr (mkOpenDialogResult true []))
    (fun _ => inr 1)
    (fun _ => inr [])
    (fun _ _ _ => inr loginPage)
    (fun _ _ => ([], None)).

(** The request of attempt [k] fails: [fetch] rejects, or the status is not
    2xx. *)
Definition fetchFails (env : Env) (cookieString url : string) (k : nat) : Prop :=
  match fetch env k url (cookieHeader cookieString) with
  | inl _ => True
  | inr response => ok response = false
  end.

Definition env500 : Env :=
  mkEnv Linux "/home/u" "/tmp" posixJoin
    (fun _ => inr (mkOpenDialogResult true []))
    (fun _ => inr 1)
    (fun _ => inr [])
    (fun _ _ _ => inr (mkResponse 500 "Internal Server Error" None None [] None))
    (fun _ _ => ([], None)).

(** The waits of a trace, in order. *)
Definition sleeps (t : list Event) : list Z :=
  omap (fun e => match e with EvSleep ms => Some ms | _ => None end) t.

(** The URLs requested in a trace, in order. *)
Definition requests (t : list Event) : list string :=
  omap (fun e => match e with EvFetch u _ => Some u | _ => None end) t.

(** The dialogs shown in a trace. *)
Definition dialogs (t : list Event) : list Event :=
  omap (fun e => match e with
                 | EvOpenDialog _ | EvMessageBox _ => Some e
                 | _ => None
                 end) t.

Definition liveriesUrl : string := "https://example.org/events/42/liveries".
Definition archive42 : string := "/tmp/liveries_event_42.zip".

(** A configured, valid livery directory; no temporary archive yet. *)
Definition worldConfigured : World :=
  mkWorld (Some (Doc (DObject {[ "liveryDirectory" := JStr "/acc/Customs" ]}))) true
    {[ "/acc/Customs" := Dir ]} ∅ ∅ None None [].

(** The download answers 200 with a ZIP content type; the connection breaks
    after the first chunk, on each attempt. *)
Definition envBroken : Env :=
  mkEnv Linux "/home/u" "/tmp" posixJoin
    (fun _ => inr (mkOpenDialogResult true []))
    (fun _ => inr 1)
    (fun _ => inr [])
    (fun _ _ _ => inr (mkResponse 200 "OK" (Some "application/zip") None
                         ["PK"] (Some (Error "terminated"))))
    (fun _ _ => ([], None)).

(** The download and the extraction both work. *)
Definition envGood : Env :=
  mkEnv Linux "/home/u" "/tmp" posixJoin
    (fun _ => inr (mkOpenDialogResult true []))
    (fun _ => inr 1)
    (fun _ => inr [])
    (fun _ _ _ => inr (mkResponse 200 "OK" (Some "application/zip") (Some "4")
                         ["PK"; "!!"] None))
    (fun _ dir => ([(posixJoin dir "car.json", File "{}")], None)).

(** The temporary archive cannot be unlinked. *)
Definition worldLocked : World :=
  mkWorld (Some (Doc (DObject {[ "liveryDirectory" := JStr "/acc/Customs" ]}))) true
    {[ "/acc/Customs" := Dir ]} {[ archive42 ]} ∅ None None [].

(** The download works, the archive does not unzip. *)
Definition envCorrupt : Env :=
  mkEnv Linux "/home/u" "/tmp" posixJoin
    (fun _ => inr (mkOpenDialogResult true []))
    (fun _ => inr 1)
    (fun _ => inr [])
    (fun _ _ _ => inr (mkResponse 200 "OK" (Some "application/zip") (Some "4")
                         ["oops"] None))
    (fun _ _ => ([], Some (Error "invalid signature: 0x73706f6f"))).

(** ** main.js: further handlers *)

(** [mainWindow.show()]; a destroyed window throws. *)
Definition showWindow (win : Window) : M unit :=
  if destroyed win
  then throw "Object has been destroyed"
  else modify (setMainWindow (Some (mkWindow (loaded win) true false))).

(** The tray's [Show App] entry and its [click] and [double-click]
    handlers. *)
Definition trayShowApp : M unit :=
  mw <- gets mainWindow ;;
  match mw with
  | Some win => showWindow win
  | None => createMainWindow
  end.

(** ** Relations between the world before and after *)

(** [m] keeps [R]: whatever [m] does, returning or throwing, the world it
    ends in is [R]-related to the one it started in. *)
Definition keeps {A} (R : World -> World -> Prop) (m : M A) : Prop :=
  forall w, R w (m w).2.

(** The observation [f] of the world is the same after as before. *)
Definition same {B} (f : World -> B) : World -> World -> Prop :=
  fun w w' => f w' = f w.


(** Everything but the trace. *)
Definition untraced (w : World) :=
  (configFile w, configWritable w, nodes w, undeletable w, uncreatable w,
   mainWindow w, configWindow w).

(** Adding the event [e] to the trace does not change the observation. *)
Definition quiet {B} (f : World -> B) (e : Event) : Prop :=
  forall w, f (logged e w) = f w.

(** Changing the filesystem nodes does not change the observation. *)
Definition ignoresNodes {B} (f : World -> B) : Prop :=
  forall n w, f (setNodes n w) = f w.

(** The [defaultPath] that [selectDocumentsFolder] opens its dialog on. *)
Definition dialogDefaultPath (env : Env) (w : World) : string :=
  match nodes w !! getAutoDetectDocumentsPath env with
  | Some Dir => getAutoDetectDocumentsPath env
  | _ => homeDir env
  end.

(** No usable directory is configured: the download handler will prompt. *)
Definition needsPrompt (w : World) : Prop :=
  exists v,
    getConfiguredLiveryDirectory w = (Return v, w)
    /\ (truthy v = false \/ validateDirectory v w = (Return false, w)).

(** The download handler from [fs.mkdirSync(customsDir)] on, once the
    target directory is resolved. *)
Definition installInto (env : Env) (eventId baseUrl documentsDir : JsValue)
    : M Result :=
  let downloadUrl := toStr baseUrl ++ "/events/" ++ toStr eventId ++ "/liveries" in
  let customsDir := documentsDir in
  mkdirSync customsDir ;;;
  let zipPath := zipPathOf env eventId in
  cookieString <- collectCookies env baseUrl ;;
  downloadFileWithRetry env cookieString downloadUrl zipPath 3 ;;;
  let extractDir := customsDir in
  tryCatch
    (extract env zipPath extractDir ;;;
     unlinkSync zipPath ;;;
     ret (mkResult true
            ("Liveries downloaded and extracted to " ++ toStr extractDir)
            (Some extractDir)))
    (fun extractionError =>
       tryCatch (unlinkSync zipPath) (fun _ => ret tt) ;;;
       throw ("Failed to extract ZIP file: " ++ message extractionError)).


(** What a retry loop whose requests all fail adds to the trace, from
    [attempt] on with [remaining] iterations left. *)
Fixpoint retryTrace (request : Event) (attempt remaining : nat) : list Event :=
  match remaining with
  | O => []
  | S O => [request]
  | S (S _ as remaining') =>
      request :: EvSleep (2 ^ Z.of_nat attempt * 1000)
        :: retryTrace request (S attempt) remaining'
  end.

(** The URLs requested so far. *)
Definition requested (w : World) : list string := requests (trace w).

(** At most [k] requests were added, each of them to [url]. *)
Definition sends (k : nat) (url : string) : World -> World -> Prop :=
  fun w w' =>
    exists j, (j <= k)%nat /\ requested w' = (requested w ++ replicate j url)%list.

(** The [serverUrl] field of the stored record, when the file holds a
    record. *)
Definition serverUrlField (w : World) : option JsValue :=
  match configFile w with
  | Some (Doc (DObject m)) => m !! "serverUrl"
  | _ => None
  end.

(** The temporary archive cannot be created: the temporary directory is not
    writable. *)
Definition worldNoTemp : World :=
  mkWorld (Some (Doc (DObject {[ "liveryDirectory" := JStr "/acc/Customs" ]}))) true
    {[ "/acc/Customs" := Dir ]} ∅ {[ archive42 ]} None None [].

(** A directory sits at the path of the temporary archive. *)
Definition worldDirAtTemp : World :=
  mkWorld (Some (Doc (DObject {[ "liveryDirectory" := JStr "/acc/Customs" ]}))) true
    {[ "/acc/Customs" := Dir; archive42 := Dir ]} ∅ ∅ None None [].

(** The download answers 200 with an empty body. *)
Definition envEmptyBody : Env :=
  mkEnv Linux "/home/u" "/tmp" posixJoin
    (fun _ => inr (mkOpenDialogResult true []))
    (fun _ => inr 1)
    (fun _ => inr [])
    (fun _ _ _ => inr (mkResponse 200 "OK" (Some "application/zip") (Some "0") [] None))
    (fun _ _ => ([], None)).

(** * Properties *)

Ltac unfold_js :=
  unfold handle_save_url, handle_config_saved, reloadMainWindow,
    createMainWindow, createConfigWindow,
    saveMinimizeToTrayPreference, saveConfiguredLiveryDirectory,
    getConfiguredLiveryDirectory, readSavedConfig, saveConfig, saveUrl,
    readSavedUrl, writeConfigData, readConfigData, getField, setField,
    settle, emit, modify, gets, tryCatch, bind, rethrow, throw, ret in *.

(** ** The configuration store *)

Lemma readSavedConfig_total (w : World) :
  readSavedConfig w = (Return (storedRecord w), w).
Proof.
  unfold storedRecord. unfold_js. unfold configExists.
  destruct (configFile w) as [[| |d]|] eqn:E; cbn; rewrite ?E; reflexivity.
Qed.

Lemma stringified_parsed (m : gmap string JsValue) :
  parsed m -> stringified (DObject m) = DObject m.
Proof.
  intros Hm. unfold stringified. f_equal.
  apply map_filter_id. intros k v Hk. simpl. intros ->. exact (Hm k Hk).
Qed.

Lemma stringified_lookup (m : gmap string JsValue) (k : string) (v : JsValue) :
  v <> JUndefined ->
  m !! k = Some v ->
  filter (fun kv : string * JsValue => kv.2 <> JUndefined) m !! k = Some v.
Proof. intros Hv Hk. apply map_lookup_filter_Some. split; [exact Hk | exact Hv]. Qed.

(** [saveUrl] replaces the whole record by one that has the [url] field
    alone. *)
Lemma saveUrl_overwrites (url : JsValue) (w : World) :
  configWritable w = true ->
  saveUrl url w =
    (Return true, setConfigFile (Some (Doc (stringified (DObject {[ "url" := url ]})))) w).
Proof. intros Hw. unfold_js. rewrite Hw. reflexivity. Qed.

(** [saveMinimizeToTrayPreference] is a read-modify-write: every other field
    of a stored record is read back as it was. *)
Lemma saveMinimizeToTrayPreference_preserves
    (shouldMinimize : JsValue) (w : World) (m : gmap string JsValue) (k : string) :
  configFile w = Some (Doc (DObject m)) ->
  parsed m ->
  configWritable w = true ->
  k <> "minimizeToTray" ->
  exists w' m',
    saveMinimizeToTrayPreference shouldMinimize w = (Return true, w')
    /\ readSavedConfig w' = (Return (DObject m'), w')
    /\ m' !! k = m !! k.
Proof.
  intros Hc Hm Hw Hk.
  unfold saveMinimizeToTrayPreference.
  unfold tryCatch at 1. unfold bind at 1.
  rewrite readSavedConfig_total. unfold storedRecord. rewrite Hc.
  unfold_js. rewrite Hw.
  eexists _, _. split; [reflexivity|].
  split.
  - unfold configExists. simpl. reflexivity.
  - rewrite map_lookup_filter. rewrite lookup_insert_ne by congruence.
    destruct (m !! k) as [v|] eqn:E; simpl; [|reflexivity].
    rewrite option_guard_True; [reflexivity|].
    intros ->. exact (Hm k E).
Qed.

(** The same for [saveConfiguredLiveryDirectory], which writes the
    [liveryDirectory] key. *)
Lemma saveConfiguredLiveryDirectory_writes (directory : string) (w : World)
    (m : gmap string JsValue) :
  configFile w = Some (Doc (DObject m)) ->
  configWritable w = true ->
  exists w' m',
    saveConfiguredLiveryDirectory (JStr directory) w = (Return true, w')
    /\ storedRecord w' = DObject m'
    /\ m' !! "liveryDirectory" = Some (JStr directory).
Proof.
  intros Hc Hw.
  unfold saveConfiguredLiveryDirectory.
  unfold tryCatch at 1. unfold bind at 1.
  rewrite readSavedConfig_total. unfold storedRecord. rewrite Hc.
  unfold_js. rewrite Hw.
  eexists _, _. split; [reflexivity|].
  split; [reflexivity|].
  apply stringified_lookup; [discriminate|]. apply lookup_insert_eq.
Qed.

(** What [readSavedUrl] evaluates to; shared by the proofs below. *)
Lemma readSavedUrl_eval (w : World) :
  readSavedUrl w =
    (Return match urlField w with
            | Some v => if truthy v then v else JStr DEFAULT_URL
            | None => JStr DEFAULT_URL
            end, w).
Proof.
  unfold urlField. unfold_js. unfold configExists, jsOr.
  destruct (configFile w) as [[| |[m| |]]|] eqn:E; cbn; rewrite ?E;
    try reflexivity.
  destruct (m !! "url") as [v|]; cbn; [|reflexivity].
  destruct (truthy v); reflexivity.
Qed.

(** C9, as amended: [readSavedUrl] never throws and leaves the world as it
    is; it returns the stored record's [url] field (the key the code reads;
    no other field plays a part) when that field is present and truthy, and
    the default URL in every other case: the field is absent or falsy (the
    empty string), the file is missing, unreadable, not JSON, or does not
    hold a record. *)
Theorem readSavedUrl_spec (w : World) :
  readSavedUrl w =
    (Return match urlField w with
            | Some v => if truthy v then v else JStr DEFAULT_URL
            | None => JStr DEFAULT_URL
            end, w).
Proof.
  unfold urlField. unfold_js. unfold configExists, jsOr.
  destruct (configFile w) as [[| |[m| |]]|] eqn:E; cbn; rewrite ?E;
    try reflexivity.
  destruct (m !! "url") as [v|]; cbn; [|reflexivity].
  destruct (truthy v); reflexivity.
Qed.

(** C9, as stated, fails, on the field it names and on what is returned
    for a field that is there: with [{ serverUrl: 'https://example.org' }]
    stored, [readSavedUrl] returns the default URL, because the code reads the
    key [url]; and with [{ url: '' }] stored, the field the code reads is
    present and what is returned is again the default URL, not the field. *)
Lemma readSavedUrl_field_not_returned :
  ~ (forall (w : World) (v : JsValue),
       serverUrlField w = Some v -> exists w', readSavedUrl w = (Return v, w'))
  /\ ~ (forall (w : World) (v : JsValue),
         urlField w = Some v -> exists w', readSavedUrl w = (Return v, w')).
Proof.
  split; intros H.
  - destruct (H (worldWithConfig
                   (Some (Doc (DObject {[ "serverUrl" := JStr "https://example.org" ]}))))
                (JStr "https://example.org")) as [w' Hw'].
    + vm_compute. reflexivity.
    + rewrite readSavedUrl_eval in Hw'. vm_compute in Hw'. discriminate Hw'.
  - destruct (H (worldWithConfig (Some (Doc (DObject {[ "url" := JStr "" ]}))))
                (JStr "")) as [w' Hw'].
    + vm_compute. reflexivity.
    + rewrite readSavedUrl_eval in Hw'. vm_compute in Hw'. discriminate Hw'.
Qed.

(** C3 at its own example: after [saveConfig({ liveryDirectory, minimizeToTray })]
    and then [saveUrl(u)], what [readSavedConfig] returns is [{ url: u }]
    alone; both other fields are gone. *)
Theorem saveUrl_drops_other_fields :
  (saveConfig (DObject priorRecord) ;;;
   saveUrl (JStr "https://example.org") ;;;
   readSavedConfig) (worldWithConfig None)
  = (Return (DObject {[ "url" := JStr "https://example.org" ]}),
     worldWithConfig (Some (Doc (DObject {[ "url" := JStr "https://example.org" ]}))))
  /\ ({[ "url" := JStr "https://example.org" ]} : gmap string JsValue)
       !! "liveryDirectory" = None
  /\ ({[ "url" := JStr "https://example.org" ]} : gmap string JsValue)
       !! "minimizeToTray" = None.
Proof. repeat split; vm_compute; reflexivity. Qed.

(** The [save-url] handler goes through [saveUrl], so it loses the fields
    too. *)
Lemma handle_save_url_drops_other_fields :
  exists w',
    handle_save_url (JStr "https://example.org")
      (worldWithConfig (Some (Doc (DObject priorRecord)))) = (Return true, w')
    /\ storedRecord w' = DObject {[ "url" := JStr "https://example.org" ]}.
Proof. eexists. split; vm_compute; reflexivity. Qed.

(** The [config-saved] handler merges instead, and keeps them. *)
Lemma handle_config_saved_keeps_other_fields :
  exists w',
    handle_config_saved (JStr "https://example.org")
      (worldWithConfig (Some (Doc (DObject priorRecord)))) = (Return true, w')
    /\ storedRecord w' = DObject (<[ "url" := JStr "https://example.org" ]> priorRecord).
Proof. eexists. split; vm_compute; reflexivity. Qed.

(** ** Directory selection *)

(** C8 at a first selection: the [select-documents-folder] handler stores the
    chosen directory under [documentsFolder]; the stored record has no
    [liveryDirectory] field. *)
Theorem select_documents_folder_writes_legacy_key :
  exists w',
    handle_select_documents_folder envPick (worldPick None)
      = (Return (mkFolderResult (JStr "/home/u/ACC/Customs") false), w')
    /\ storedRecord w' = DObject {[ "documentsFolder" := JStr "/home/u/ACC/Customs" ]}
    /\ ({[ "documentsFolder" := JStr "/home/u/ACC/Customs" ]} : gmap string JsValue)
         !! "liveryDirectory" = None.
Proof. eexists. repeat split; vm_compute; reflexivity. Qed.

(** With a [liveryDirectory] already stored, the new selection is shadowed:
    [getConfiguredLiveryDirectory] still answers the old directory. *)
Lemma select_documents_folder_shadowed :
  exists r w' w'',
    handle_select_documents_folder envPick
      (worldPick (Some (Doc (DObject {[ "liveryDirectory" := JStr "/old/Customs" ]}))))
      = (Return r, w')
    /\ path r = JStr "/home/u/ACC/Customs"
    /\ getConfiguredLiveryDirectory w' = (Return (JStr "/old/Customs"), w'').
Proof. eexists _, _, _. repeat split; vm_compute; reflexivity. Qed.

(** ** Startup *)

(** C6: at launch [initializeApp] ends in [ConfigOnly], with the
    configuration window created and no main window, if and only if
    [readSavedUrl] gave the default URL and no configuration file exists; in
    every other case it ends in [MainVisible], with the main window created
    on the saved URL and no configuration window. *)
Theorem initializeApp_startup (w : World) :
  exists (u : JsValue) (w' : World),
    readSavedUrl (atLaunch w) = (Return u, atLaunch w)
    /\ initializeApp (atLaunch w) = (Return tt, w')
    /\ (stateOf w' = ConfigOnly <-> u = JStr DEFAULT_URL /\ configFile w = None)
    /\ (stateOf w' = ConfigOnly /\ mainWindow w' = None
          /\ configWindow w' = Some (mkWindow "config.html" true false)
        \/ stateOf w' = MainVisible /\ configWindow w' = None
          /\ mainWindow w' = Some (mkWindow (toStr u) true false)).
Proof.
  set (u := match urlField (atLaunch w) with
            | Some v => if truthy v then v else JStr DEFAULT_URL
            | None => JStr DEFAULT_URL
            end).
  exists u.
  unfold initializeApp, bind. rewrite readSavedUrl_eval. fold u.
  unfold gets, configExists, createMainWindow, createConfigWindow, bind, modify.
  change (configFile (atLaunch w)) with (configFile w).
  change (JStr "https://blancpaw-gt.uk") with (JStr DEFAULT_URL).
  destruct (bool_decide (u = JStr DEFAULT_URL)) eqn:Hu;
    [apply bool_decide_eq_true in Hu | apply bool_decide_eq_false in Hu];
    destruct (configFile w) as [c|] eqn:Hc; cbn [andb negb];
    try (rewrite readSavedUrl_eval; fold u);
    eexists; (split; [reflexivity|]); (split; [reflexivity|]); cbn; split.
  all: try (right; repeat split; fail).
  all: try (left; repeat split; fail).
  all: split;
    [ intros H; first [discriminate H | split; [assumption | reflexivity]]
    | intros [? ?]; first [reflexivity | congruence] ].
Qed.

(** ** The download handler *)

Lemma bind_Return_inv {A B} (m : M A) (k : A -> M B) (w w' : World) (b : B) :
  bind m k w = (Return b, w') ->
  exists a w1, m w = (Return a, w1) /\ k a w1 = (Return b, w').
Proof.
  unfold bind. destruct (m w) as [[e|a|] w1]; [discriminate| |discriminate].
  intros H. exists a, w1. split; [reflexivity | exact H].
Qed.

Lemma bind_throw_never_returns {A B} (m : M A) (msg : string)
    (w w' : World) (b : B) :
  bind m (fun _ => throw msg) w <> (Return b, w').
Proof. unfold bind, throw. destruct (m w) as [[e|a|] w1]; discriminate. Qed.

(** C10: when [eventId] or [baseUrl] is falsy the handler resolves to
    [{ success: false, message: 'Missing required parameters: eventId and
    baseUrl' }] and the world is the one it started in: no dialog shown, no
    request sent, no directory or file created, the configuration as it
    was. *)
Theorem missing_parameters_fail_fast (env : Env) (eventId baseUrl : JsValue)
    (w : World) :
  truthy eventId = false \/ truthy baseUrl = false ->
  handle_download_event_liveries env eventId baseUrl w
    = (Return (mkResult false MSG_MISSING None), w).
Proof.
  intros H.
  assert (Hc : negb (truthy eventId) || negb (truthy baseUrl) = true).
  { destruct H as [-> | ->]; [reflexivity | apply orb_true_r]. }
  unfold handle_download_event_liveries, downloadEventLiveriesBody.
  unfold tryCatch, bind at 1. rewrite Hc. reflexivity.
Qed.

Lemma missing_parameters_fail_fast_witness :
  truthy (JStr "") = false
  /\ handle_download_event_liveries envPick (JStr "") (JStr "https://example.org")
       (worldPick None)
     = (Return (mkResult false MSG_MISSING None), worldPick None).
Proof.
  split; [reflexivity|].
  apply (missing_parameters_fail_fast envPick (JStr "") (JStr "https://example.org")
           (worldPick None)).
  left. reflexivity.
Defined.

Lemma parseInt_empty : parseInt "" = None.
Proof. reflexivity. Qed.

(** C5: a 2xx response whose content type includes [text/html], whose
    declared content length parses to more than 1000 and whose body text
    contains one of the markers makes the attempt throw the
    authentication-required error; the filesystem is as before, so nothing
    of the body reached the temporary file. *)
Theorem html_login_page_is_auth_failure (env : Env)
    (cookieString url destPath : string) (attempt : nat) (w : World)
    (response : Response) (ct len text : string) (n : Z) :
  fetch env attempt url (cookieHeader cookieString) = inr response ->
  ok response = true ->
  contentType response = Some ct ->
  includes "text/html" ct = true ->
  contentLength response = Some len ->
  parseInt len = Some n ->
  1000 < n ->
  responseText response = inr text ->
  includes "login" text = true \/ includes "redirect" text = true
    \/ includes "401" text = true \/ includes "403" text = true
    \/ includes "Unauthorized" text = true ->
  exists w',
    downloadAttempt env cookieString url destPath attempt w
      = (Throw (Error MSG_AUTH_HTML), w')
    /\ nodes w' = nodes w
    /\ String.prefix "Authentication required" MSG_AUTH_HTML = true.
Proof.
  intros Hfetch Hok Hct Hhtml Hlen Hn Hgt Htext Hmark.
  assert (Hne : String.eqb len "" = false).
  { destruct len; [rewrite parseInt_empty in Hn; discriminate | reflexivity]. }
  assert (Hm : includes "redirect" text || includes "login" text
               || includes "401" text || includes "403" text
               || includes "Unauthorized" text = true).
  { destruct Hmark as [-> | [-> | [-> | [-> | ->]]]];
      rewrite ?orb_true_r; reflexivity. }
  exists (logged (EvFetch url (cookieHeader cookieString)) w).
  split; [|split; reflexivity].
  unfold downloadAttempt, bind, emit, modify, settle.
  rewrite Hfetch. unfold ret at 1. rewrite Hok. cbn [negb]. unfold ret at 1.
  rewrite Hct, Hlen. cbn [from_option id]. rewrite Hhtml, Hne, Hn.
  apply Z.ltb_lt in Hgt. rewrite Hgt. cbn [negb andb].
  rewrite Htext. unfold ret at 1. rewrite Hm. reflexivity.
Qed.

Lemma html_login_page_is_auth_failure_witness :
  exists w',
    downloadAttempt envLoginPage "" "https://example.org/events/42/liveries"
      "/tmp/liveries_event_42.zip" 1 (worldPick None)
      = (Throw (Error MSG_AUTH_HTML), w')
    /\ nodes w' = nodes (worldPick None)
    /\ String.prefix "Authentication required" MSG_AUTH_HTML = true.
Proof.
  apply (html_login_page_is_auth_failure envLoginPage ""
           "https://example.org/events/42/liveries" "/tmp/liveries_event_42.zip"
           1%nat (worldPick None) loginPage "text/html; charset=utf-8" "2048"
           "<html><body>Please login to continue</body></html>" 2048).
  - reflexivity.
  - reflexivity.
  - reflexivity.
  - reflexivity.
  - reflexivity.
  - reflexivity.
  - lia.
  - reflexivity.
  - left. reflexivity.
Defined.

(** The body of the handler returns only from the end of the inner [try]:
    with the success object, right after a [fs.unlinkSync] of the temporary
    archive that did not throw. *)
Lemma body_Return (env : Env) (eventId baseUrl : JsValue) (w w' : World)
    (r : Result) :
  downloadEventLiveriesBody env eventId baseUrl w = (Return r, w') ->
  exists d w2,
    r = mkResult true ("Liveries downloaded and extracted to " ++ toStr d) (Some d)
    /\ unlinkSync (zipPathOf env eventId) w2 = (Return tt, w').
Proof.
  unfold downloadEventLiveriesBody. intros H.
  apply bind_Return_inv in H as (? & w1 & _ & H).
  apply bind_Return_inv in H as (configured & w2 & _ & H).
  apply bind_Return_inv in H as (documentsDir & w3 & _ & H).
  apply bind_Return_inv in H as (? & w4 & _ & H).
  apply bind_Return_inv in H as (cookieString & w5 & _ & H).
  apply bind_Return_inv in H as (? & w6 & _ & H).
  unfold tryCatch in H.
  match type of H with
  | match ?inner with _ => _ end = _ => destruct inner as [[e|a|] w7] eqn:E
  end; [| |discriminate].
  - exfalso. exact (bind_throw_never_returns _ _ _ _ _ H).
  - injection H as -> ->.
    apply bind_Return_inv in E as (? & w8 & _ & E).
    apply bind_Return_inv in E as ([] & w9 & Hu & E).
    unfold ret in E. injection E as <- <-.
    exists documentsDir, w8. split; [reflexivity | exact Hu].
Qed.

Lemma unlinkSync_Return (p : string) (w w' : World) :
  unlinkSync p w = (Return tt, w') -> nodes w' !! p = None.
Proof.
  unfold unlinkSync. destruct (bool_decide (p ∈ undeletable w)); [discriminate|].
  destruct (nodes w !! p) as [[|c]|]; try discriminate.
  intros H. injection H as <-. cbn. apply lookup_delete_eq.
Qed.

(** On the success path the temporary archive is gone when the handler
    resolves. *)
Lemma success_removes_archive (env : Env) (eventId baseUrl : JsValue)
    (w w' : World) (r : Result) :
  handle_download_event_liveries env eventId baseUrl w = (Return r, w') ->
  success r = true ->
  nodes w' !! zipPathOf env eventId = None.
Proof.
  unfold handle_download_event_liveries, tryCatch.
  destruct (downloadEventLiveriesBody env eventId baseUrl w) as [[e|r0|] w0] eqn:E;
    [| |discriminate].
  - unfold ret. intros H. injection H as <- <-. discriminate.
  - intros H _. injection H as <- <-.
    apply body_Return in E as (d & w2 & _ & Hu).
    exact (unlinkSync_Return _ _ _ Hu).
Qed.

(** What the handler promises it keeps where it comes back: it never
    throws, and what it returns is [{ success: true, message,
    targetDirectory }] when the body of its [try] returned and
    [{ success: false, message }], with the message of what was thrown, when
    that body threw. *)
Lemma handler_resolves_well_formed (env : Env) (eventId baseUrl : JsValue)
    (w : World) :
  match handle_download_event_liveries env eventId baseUrl w with
  | (Throw _, _) => False
  | (Return r, w') =>
      success r = true
      /\ (exists d, targetDirectory r = Some d
            /\ resultMessage r = "Liveries downloaded and extracted to " ++ toStr d)
      /\ downloadEventLiveriesBody env eventId baseUrl w = (Return r, w')
      \/
      success r = false
      /\ targetDirectory r = None
      /\ (exists e, downloadEventLiveriesBody env eventId baseUrl w = (Throw e, w')
            /\ resultMessage r = message e)
  | (Never, w') => downloadEventLiveriesBody env eventId baseUrl w = (Never, w')
  end.
Proof.
  unfold handle_download_event_liveries, tryCatch.
  destruct (downloadEventLiveriesBody env eventId baseUrl w) as [[e|r|] w'] eqn:E.
  - right. repeat split. exists e. split; reflexivity.
  - left. destruct (body_Return _ _ _ _ _ _ E) as (d & w2 & -> & _).
    repeat split. exists d. split; reflexivity.
  - reflexivity.
Qed.

(** C2 where the temporary archive cannot be opened for writing: the
    download answers 200 with a body, the write stream fails to open, its
    ['error'] has no listener, [writer.write] answers [false] and the wait
    for ['drain'] never ends: the handler sent its one request and never
    resolves, to a result object or to anything else. *)
Theorem unopened_archive_never_resolves :
  let out := handle_download_event_liveries envGood (JStr "42")
               (JStr "https://example.org") worldNoTemp in
  zipPathOf envGood (JStr "42") = archive42
  /\ out.1 = Never
  /\ requests (trace out.2) = [liveriesUrl]
  /\ nodes out.2 !! archive42 = None.
Proof. repeat split; vm_compute; reflexivity. Qed.

(** The same end by the other stream: with a directory at the archive's path
    and an empty body the download returns, and the extraction waits for a
    [close] or an [error] that the failed read stream never brings. *)
Lemma unreadable_archive_never_resolves :
  let out := handle_download_event_liveries envEmptyBody (JStr "42")
               (JStr "https://example.org") worldDirAtTemp in
  out.1 = Never /\ requests (trace out.2) = [liveriesUrl].
Proof. repeat split; vm_compute; reflexivity. Qed.

(** ** The retry loop *)

Lemma failed_fetch_throws (env : Env) (cookieString url destPath : string)
    (k : nat) :
  fetchFails env cookieString url k ->
  exists e, forall w,
    downloadAttempt env cookieString url destPath k w
      = (Throw e, logged (EvFetch url (cookieHeader cookieString)) w).
Proof.
  unfold fetchFails, downloadAttempt, bind, emit, modify, settle.
  destruct (fetch env k url (cookieHeader cookieString)) as [e|response].
  - intros _. exists e. reflexivity.
  - intros Hok. unfold ret at 1. cbv beta iota. rewrite Hok. cbn [negb].
    destruct ((status response =? 401) || (status response =? 403));
      [|destruct (status response =? 404)];
      eexists; intros w; reflexivity.
Qed.

(** When every request fails, the loop makes three requests, waits 2000 ms
    after the first and 4000 ms after the second, and throws the
    three-attempts error around the last failure. *)
Lemma retry_exhausted (env : Env) (cookieString url destPath : string) :
  (forall k, fetchFails env cookieString url k) ->
  exists e, forall w,
    downloadFileWithRetry env cookieString url destPath 3 w
      = (Throw (Error ("Failed to download after 3 attempts: " ++ message e)),
         let request := EvFetch url (cookieHeader cookieString) in
         logged request
           (logged (EvSleep 4000)
              (logged request
                 (logged (EvSleep 2000)
                    (logged request w))))).
Proof.
  intros H.
  destruct (failed_fetch_throws env cookieString url destPath 1 (H 1%nat)) as [e1 H1].
  destruct (failed_fetch_throws env cookieString url destPath 2 (H 2%nat)) as [e2 H2].
  destruct (failed_fetch_throws env cookieString url destPath 3 (H 3%nat)) as [e3 H3].
  exists e3. intros w.
  unfold downloadFileWithRetry, retryFrom, tryCatch, bind.
  rewrite H1. cbn [Nat.eqb]. unfold emit, modify, ret.
  rewrite H2. cbn [Nat.eqb].
  rewrite H3. cbn [Nat.eqb]. unfold throw.
  reflexivity.
Qed.

(** C4 on an endpoint that always answers 500: three requests and the
    three-attempts error, but the waits are 2000 ms before the second attempt
    and 4000 ms before the third, not 1 s and 2 s. *)
Theorem always_500_retry_schedule :
  let out := downloadFileWithRetry env500 "" liveriesUrl archive42 3 worldConfigured in
  out.1 = Throw (Error
    "Failed to download after 3 attempts: Failed to download: 500 Internal Server Error")
  /\ requests (trace out.2) = [liveriesUrl; liveriesUrl; liveriesUrl]
  /\ sleeps (trace out.2) = [2000; 4000]
  /\ trace out.2 =
       [EvFetch liveriesUrl None; EvSleep 2000; EvFetch liveriesUrl None;
        EvSleep 4000; EvFetch liveriesUrl None].
Proof. repeat split; vm_compute; reflexivity. Qed.

(** C1 after a download that fails in mid-stream: the handler resolves to the
    three-attempts failure, and the partial temporary archive is still
    there. *)
Theorem failed_download_leaves_archive :
  let out := handle_download_event_liveries envBroken (JStr "42")
               (JStr "https://example.org") worldConfigured in
  zipPathOf envBroken (JStr "42") = archive42
  /\ nodes worldConfigured !! archive42 = None
  /\ out.1 = Return (mkResult false
               "Failed to download after 3 attempts: terminated" None)
  /\ nodes out.2 !! archive42 = Some (File "PK").
Proof. repeat split; vm_compute; reflexivity. Qed.

(** With nothing in the way the handler succeeds, without any dialog, and
    the archive is removed. *)
Lemma good_download_succeeds :
  let out := handle_download_event_liveries envGood (JStr "42")
               (JStr "https://example.org") worldConfigured in
  out.1 = Return (mkResult true "Liveries downloaded and extracted to /acc/Customs"
                    (Some (JStr "/acc/Customs")))
  /\ requests (trace out.2) = [liveriesUrl]
  /\ dialogs (trace out.2) = []
  /\ nodes out.2 !! "/acc/Customs/car.json" = Some (File "{}")
  /\ nodes out.2 !! archive42 = None.
Proof. repeat split; vm_compute; reflexivity. Qed.

(** C7 when the final [fs.unlinkSync] throws: download and extraction have
    succeeded (the entry is in the target directory), and the handler
    resolves to [{ success: false }] with an extraction-failure message. *)
Theorem unlink_failure_flips_result :
  let out := handle_download_event_liveries envGood (JStr "42")
               (JStr "https://example.org") worldLocked in
  out.1 = Return (mkResult false
    "Failed to extract ZIP file: EPERM: operation not permitted, unlink '/tmp/liveries_event_42.zip'"
    None)
  /\ nodes out.2 !! "/acc/Customs/car.json" = Some (File "{}")
  /\ nodes out.2 !! archive42 = Some (File "PK!!").
Proof. repeat split; vm_compute; reflexivity. Qed.

(** On the extraction-failure path the archive is unlinked before the error
    is reported. *)
Lemma extraction_failure_removes_archive :
  let out := handle_download_event_liveries envCorrupt (JStr "42")
               (JStr "https://example.org") worldConfigured in
  out.1 = Return (mkResult false
            "Failed to extract ZIP file: invalid signature: 0x73706f6f" None)
  /\ nodes out.2 !! archive42 = None.
Proof. repeat split; vm_compute; reflexivity. Qed.

(** * Further properties of the code *)

(** ** The configuration store, continued *)

Lemma parsed_insert (m : gmap string JsValue) (k : string) (v : JsValue) :
  parsed m -> v <> JUndefined -> parsed (<[k := v]> m).
Proof.
  intros Hm Hv j. destruct (decide (k = j)) as [->|Hne].
  - rewrite lookup_insert_eq. congruence.
  - rewrite lookup_insert_ne by exact Hne. apply Hm.
Qed.

Lemma parsed_empty : parsed ∅.
Proof. intros k. rewrite lookup_empty. discriminate. Qed.

Lemma stringified_insert_undefined (m : gmap string JsValue) (k : string) :
  parsed m ->
  stringified (DObject (<[k := JUndefined]> m)) = DObject (delete k m).
Proof.
  intros Hm. unfold stringified. f_equal.
  rewrite map_filter_insert_False by (cbn; intros H; apply H; reflexivity).
  apply map_filter_id. intros j v Hj. cbn. intros ->.
  apply lookup_delete_Some in Hj as [_ Hj]. exact (Hm j Hj).
Qed.

(** X1: a record written by [saveConfig] is what [readSavedConfig] reads
    next, unknown fields included. *)
Theorem saveConfig_readSavedConfig (m : gmap string JsValue) (w : World) :
  parsed m ->
  configWritable w = true ->
  (saveConfig (DObject m) ;;; readSavedConfig) w
    = (Return (DObject m), setConfigFile (Some (Doc (DObject m))) w).
Proof.
  intros Hm Hw. unfold bind at 1.
  unfold saveConfig, tryCatch, bind, writeConfigData. rewrite Hw.
  unfold ret at 1. cbv beta iota.
  rewrite readSavedConfig_total, (stringified_parsed m Hm). reflexivity.
Qed.

Lemma saveConfig_readSavedConfig_witness :
  (saveConfig (DObject priorRecord) ;;; readSavedConfig) (worldWithConfig None)
    = (Return (DObject priorRecord),
       setConfigFile (Some (Doc (DObject priorRecord))) (worldWithConfig None)).
Proof.
  apply (saveConfig_readSavedConfig priorRecord (worldWithConfig None)).
  - intros k. unfold priorRecord.
    destruct (decide (k = "liveryDirectory")) as [->|H1];
      [vm_compute; discriminate|].
    destruct (decide (k = "minimizeToTray")) as [->|H2];
      [vm_compute; discriminate|].
    rewrite lookup_insert_ne by congruence.
    rewrite lookup_singleton_ne by congruence. discriminate.
  - reflexivity.
Defined.

(** X2: when the file cannot be written, [saveConfig] answers [false]
    instead of throwing, and nothing has changed. *)
Theorem saveConfig_unwritable (config : Data) (w : World) :
  configWritable w = false ->
  saveConfig config w = (Return false, w).
Proof. intros Hw. unfold_js. rewrite Hw. reflexivity. Qed.

Lemma saveConfig_unwritable_witness :
  saveConfig (DObject priorRecord) (mkWorld None false ∅ ∅ ∅ None None [])
    = (Return false, mkWorld None false ∅ ∅ ∅ None None []).
Proof.
  apply (saveConfig_unwritable (DObject priorRecord)
           (mkWorld None false ∅ ∅ ∅ None None [])).
  reflexivity.
Defined.

(** X3: [readSavedConfig] never throws and never changes anything; a
    missing, unreadable or corrupt file reads as the empty record. *)
Theorem readSavedConfig_never_throws (w : World) :
  readSavedConfig w
    = (Return match configFile w with
              | Some (Doc d) => d
              | Some Unreadable | Some Corrupt | None => DObject ∅
              end, w).
Proof.
  rewrite readSavedConfig_total. unfold storedRecord.
  destruct (configFile w) as [[| |d]|]; reflexivity.
Qed.

(** X4: after [saveUrl(u)], [readSavedUrl] gives [u] back when [u] is
    truthy, and the default URL when it is not (the empty string,
    [undefined], [null]). *)
Theorem saveUrl_readSavedUrl (url : JsValue) (w : World) :
  configWritable w = true ->
  exists w',
    (saveUrl url ;;; readSavedUrl) w
      = (Return (if truthy url then url else JStr DEFAULT_URL), w')
    /\ storedRecord w' = stringified (DObject {[ "url" := url ]}).
Proof.
  intros Hw.
  exists (setConfigFile (Some (Doc (stringified (DObject {[ "url" := url ]})))) w).
  unfold bind at 1.
  rewrite (saveUrl_overwrites url w Hw), readSavedUrl_eval.
  split; [|reflexivity]. f_equal. f_equal.
  unfold urlField. cbn.
  destruct (decide (url = JUndefined)) as [->|Hu].
  - rewrite map_filter_singleton_False by (cbn; intros H; apply H; reflexivity).
    rewrite lookup_empty. reflexivity.
  - rewrite map_filter_singleton_True by exact Hu.
    rewrite lookup_singleton_eq. reflexivity.
Qed.

Lemma saveUrl_readSavedUrl_witness :
  exists w',
    (saveUrl (JStr "") ;;; readSavedUrl) (worldWithConfig None)
      = (Return (if truthy (JStr "") then JStr "" else JStr DEFAULT_URL), w')
    /\ storedRecord w' = stringified (DObject {[ "url" := JStr "" ]}).
Proof.
  apply (saveUrl_readSavedUrl (JStr "") (worldWithConfig None)). reflexivity.
Defined.

(** X5: [saveMinimizeToTrayPreference(v)] stores exactly the record that
    was there with [minimizeToTray] set to [v]; over a missing, unreadable or
    corrupt file that is the record with this field alone. *)
Theorem saveMinimizeToTrayPreference_sets (v : JsValue) (w : World)
    (m : gmap string JsValue) :
  storedRecord w = DObject m ->
  parsed m ->
  configWritable w = true ->
  v <> JUndefined ->
  saveMinimizeToTrayPreference v w
    = (Return true,
       setConfigFile (Some (Doc (DObject (<[ "minimizeToTray" := v ]> m)))) w).
Proof.
  intros Hs Hm Hw Hv.
  unfold saveMinimizeToTrayPreference, tryCatch. unfold bind at 1.
  rewrite readSavedConfig_total, Hs.
  unfold setField, bind, ret, saveConfig, tryCatch, bind, writeConfigData.
  rewrite Hw. unfold ret.
  rewrite (stringified_parsed _ (parsed_insert m _ v Hm Hv)). reflexivity.
Qed.

Lemma saveMinimizeToTrayPreference_sets_witness :
  saveMinimizeToTrayPreference (JBool false)
      (worldWithConfig (Some Corrupt))
    = (Return true,
       setConfigFile (Some (Doc (DObject (<[ "minimizeToTray" := JBool false ]> ∅))))
         (worldWithConfig (Some Corrupt))).
Proof.
  apply (saveMinimizeToTrayPreference_sets (JBool false)
           (worldWithConfig (Some Corrupt)) ∅).
  - reflexivity.
  - exact parsed_empty.
  - reflexivity.
  - discriminate.
Defined.

(** X6: [saveMinimizeToTrayPreference(undefined)] forgets the preference:
    the field is not written, every other field is. *)
Theorem saveMinimizeToTrayPreference_undefined (w : World)
    (m : gmap string JsValue) :
  storedRecord w = DObject m ->
  parsed m ->
  configWritable w = true ->
  saveMinimizeToTrayPreference JUndefined w
    = (Return true,
       setConfigFile (Some (Doc (DObject (delete "minimizeToTray" m)))) w).
Proof.
  intros Hs Hm Hw.
  unfold saveMinimizeToTrayPreference, tryCatch. unfold bind at 1.
  rewrite readSavedConfig_total, Hs.
  unfold setField, bind, ret, saveConfig, tryCatch, bind, writeConfigData.
  rewrite Hw. unfold ret.
  rewrite (stringified_insert_undefined m _ Hm). reflexivity.
Qed.

Lemma saveMinimizeToTrayPreference_undefined_witness :
  saveMinimizeToTrayPreference JUndefined (worldWithConfig None)
    = (Return true,
       setConfigFile (Some (Doc (DObject (delete "minimizeToTray" ∅))))
         (worldWithConfig None)).
Proof.
  apply (saveMinimizeToTrayPreference_undefined (worldWithConfig None) ∅).
  - reflexivity.
  - exact parsed_empty.
  - reflexivity.
Defined.

(** X7: over a file that holds JSON [null] the two read-modify-write helpers
    answer [false] and write nothing: the [TypeError] of the assignment is
    caught. *)
Theorem read_modify_write_on_null (v : JsValue) (w : World) :
  configFile w = Some (Doc DNull) ->
  saveMinimizeToTrayPreference v w = (Return false, w)
  /\ saveConfiguredLiveryDirectory v w = (Return false, w).
Proof.
  intros Hc.
  unfold saveMinimizeToTrayPreference, saveConfiguredLiveryDirectory, tryCatch.
  unfold bind at 1 3. rewrite readSavedConfig_total.
  unfold storedRecord. rewrite Hc. split; reflexivity.
Qed.

Lemma read_modify_write_on_null_witness :
  saveMinimizeToTrayPreference (JBool true) (worldWithConfig (Some (Doc DNull)))
    = (Return false, worldWithConfig (Some (Doc DNull)))
  /\ saveConfiguredLiveryDirectory (JBool true) (worldWithConfig (Some (Doc DNull)))
    = (Return false, worldWithConfig (Some (Doc DNull))).
Proof.
  apply (read_modify_write_on_null (JBool true) (worldWithConfig (Some (Doc DNull)))).
  reflexivity.
Defined.

(** X8: [getConfiguredLiveryDirectory] changes nothing; what it returns is
    [null] or a truthy value, never an empty string or [undefined]; it throws
    only over a file that holds JSON [null]. *)
Theorem getConfiguredLiveryDirectory_null_or_truthy (w : World) :
  (getConfiguredLiveryDirectory w).2 = w
  /\ match (getConfiguredLiveryDirectory w).1 with
     | Return v => v = JNull \/ truthy v = true
     | Throw _ => configFile w = Some (Doc DNull)
     | Never => False
     end.
Proof.
  unfold getConfiguredLiveryDirectory, bind.
  rewrite readSavedConfig_total. unfold storedRecord.
  destruct (configFile w) as [[| |[m| |]]|] eqn:E;
    unfold getField, ret, throw, jsOr; cbn;
    rewrite ?lookup_empty; cbn; auto.
  destruct (truthy (default JUndefined (m !! "liveryDirectory"))) eqn:E1; cbn;
    [auto|].
  destruct (truthy (default JUndefined (m !! "documentsFolder"))) eqn:E2; cbn; auto.
Qed.

(** X9: a directory stored by [saveConfiguredLiveryDirectory] is the one
    [getConfiguredLiveryDirectory] answers next, whatever [documentsFolder]
    holds; the other fields stay. *)
Theorem saveConfiguredLiveryDirectory_round_trip (d : string) (w : World)
    (m : gmap string JsValue) :
  storedRecord w = DObject m ->
  parsed m ->
  configWritable w = true ->
  d <> "" ->
  let w' := setConfigFile
              (Some (Doc (DObject (<[ "liveryDirectory" := JStr d ]> m)))) w in
  (saveConfiguredLiveryDirectory (JStr d) ;;; getConfiguredLiveryDirectory) w
    = (Return (JStr d), w').
Proof.
  intros Hs Hm Hw Hd w'. unfold bind at 1.
  assert (Hsave : saveConfiguredLiveryDirectory (JStr d) w = (Return true, w')).
  { unfold saveConfiguredLiveryDirectory, tryCatch. unfold bind at 1.
    rewrite readSavedConfig_total, Hs.
    unfold setField, bind, ret, saveConfig, tryCatch, bind, writeConfigData.
    rewrite Hw. unfold ret.
    rewrite (stringified_parsed _ (parsed_insert m _ (JStr d) Hm ltac:(discriminate))).
    reflexivity. }
  rewrite Hsave.
  unfold getConfiguredLiveryDirectory. unfold bind at 1.
  rewrite readSavedConfig_total. unfold storedRecord, w'. cbn [configFile setConfigFile].
  unfold getField, bind, ret. rewrite lookup_insert_eq. cbn [from_option id truthy].
  destruct d as [|c d']; [congruence|]. reflexivity.
Qed.

Lemma saveConfiguredLiveryDirectory_round_trip_witness :
  let w' := setConfigFile
              (Some (Doc (DObject (<[ "liveryDirectory" := JStr "/acc/Customs" ]>
                                     {[ "documentsFolder" := JStr "/old" ]}))))
              (worldWithConfig (Some (Doc (DObject {[ "documentsFolder" := JStr "/old" ]})))) in
  (saveConfiguredLiveryDirectory (JStr "/acc/Customs") ;;; getConfiguredLiveryDirectory)
    (worldWithConfig (Some (Doc (DObject {[ "documentsFolder" := JStr "/old" ]}))))
    = (Return (JStr "/acc/Customs"), w').
Proof.
  apply (saveConfiguredLiveryDirectory_round_trip "/acc/Customs"
           (worldWithConfig (Some (Doc (DObject {[ "documentsFolder" := JStr "/old" ]}))))
           {[ "documentsFolder" := JStr "/old" ]}).
  - reflexivity.
  - apply parsed_insert; [exact parsed_empty | discriminate].
  - reflexivity.
  - discriminate.
Defined.

(** ** What an operation leaves alone *)

Section Keeps.
Context (R : World -> World -> Prop) `{!PreOrder R}.

Lemma keeps_ret {A} (a : A) : keeps R (ret a).
Proof. intros w. cbn. reflexivity. Qed.

Lemma keeps_throw {A} (msg : string) : keeps R (@throw A msg).
Proof. intros w. cbn. reflexivity. Qed.

Lemma keeps_rethrow {A} (e : JsError) : keeps R (@rethrow A e).
Proof. intros w. cbn. reflexivity. Qed.

Lemma keeps_gets {A} (f : World -> A) : keeps R (gets f).
Proof. intros w. cbn. reflexivity. Qed.

Lemma keeps_settle {A} (r : JsError + A) : keeps R (settle r).
Proof. destruct r; intros w; cbn; reflexivity. Qed.

Lemma keeps_modify (f : World -> World) :
  (forall w, R w (f w)) -> keeps R (modify f).
Proof. intros H w. cbn. apply H. Qed.

Lemma keeps_bind {A B} (m : M A) (k : A -> M B) :
  keeps R m -> (forall a, keeps R (k a)) -> keeps R (bind m k).
Proof.
  intros Hm Hk w. unfold bind. specialize (Hm w).
  destruct (m w) as [[e|a|] w1]; cbn in *; [exact Hm| |exact Hm].
  etransitivity; [exact Hm | apply Hk].
Qed.

Lemma keeps_tryCatch {A} (m : M A) (h : JsError -> M A) :
  keeps R m -> (forall e, keeps R (h e)) -> keeps R (tryCatch m h).
Proof.
  intros Hm Hh w. unfold tryCatch. specialize (Hm w).
  destruct (m w) as [[e|a|] w1]; cbn in *; [|exact Hm|exact Hm].
  etransitivity; [exact Hm | apply Hh].
Qed.
End Keeps.

#[global] Instance same_preorder {B} (f : World -> B) : PreOrder (same f).
Proof.
  split.
  - intros w. reflexivity.
  - intros w1 w2 w3 H12 H23. unfold same in *. congruence.
Qed.

Section KeepsSame.
Context {B : Type} (f : World -> B).

Lemma keeps_emit (e : Event) : quiet f e -> keeps (same f) (emit e).
Proof. intros H. apply keeps_modify. intros w. apply H. Qed.

Lemma keeps_readSavedConfig : keeps (same f) readSavedConfig.
Proof. intros w. rewrite readSavedConfig_total. reflexivity. Qed.

Lemma keeps_readSavedUrl : keeps (same f) readSavedUrl.
Proof. intros w. rewrite readSavedUrl_eval. reflexivity. Qed.

Lemma keeps_getField (d : Data) (k : string) : keeps (same f) (getField d k).
Proof. destruct d; intros w; reflexivity. Qed.

Lemma keeps_validateDirectory (v : JsValue) : keeps (same f) (validateDirectory v).
Proof. apply keeps_gets. apply _. Qed.

Hypothesis Hnodes : ignoresNodes f.

Lemma keeps_mkdirSync (p : JsValue) : keeps (same f) (mkdirSync p).
Proof.
  destruct p; try (intros w; reflexivity).
  intros w. unfold mkdirSync.
  destruct (bool_decide (s ∈ uncreatable w)); [reflexivity|].
  destruct (nodes w !! s) as [[|c]|]; cbn; try reflexivity; apply Hnodes.
Qed.

Lemma keeps_unlinkSync (p : string) : keeps (same f) (unlinkSync p).
Proof.
  intros w. unfold unlinkSync.
  destruct (bool_decide (p ∈ undeletable w)); [reflexivity|].
  destruct (nodes w !! p) as [[|c]|]; cbn; try reflexivity; apply Hnodes.
Qed.

Lemma keeps_never {A} : keeps (same f) (@never A).
Proof. intros w. reflexivity. Qed.

Lemma keeps_createWriteStream (p : string) : keeps (same f) (createWriteStream p).
Proof.
  intros w. unfold createWriteStream.
  destruct (bool_decide (p ∈ uncreatable w)); [reflexivity|].
  destruct (nodes w !! p) as [[|c]|]; cbn; try reflexivity; apply Hnodes.
Qed.

Lemma keeps_writeChunk (opened : bool) (p chunk : string) :
  keeps (same f) (writeChunk opened p chunk).
Proof.
  destruct opened; [|apply keeps_never].
  apply keeps_modify. intros w. apply Hnodes.
Qed.

Lemma keeps_pump (opened : bool) (p : string) (chunks : list string)
    (fault : option JsError) :
  keeps (same f) (pump opened p chunks fault).
Proof.
  induction chunks as [|chunk rest IH]; cbn.
  - destruct fault; [apply keeps_rethrow | apply keeps_ret]; apply _.
  - apply keeps_bind; [apply _ | apply keeps_writeChunk | intros _; exact IH].
Qed.

Lemma keeps_extract (env : Env) (zipPath : string) (extractDir : JsValue) :
  keeps (same f) (extract env zipPath extractDir).
Proof.
  destruct extractDir; try (intros w; reflexivity).
  unfold extract. apply keeps_bind; [apply _ | apply keeps_gets; apply _ |].
  intros [[|content]|]; try (intros w; reflexivity).
  destruct (unzip env content s) as [written [e|]];
    (apply keeps_bind; [apply _ | apply keeps_modify; intros w; apply Hnodes |]);
    intros _; [apply keeps_rethrow | apply keeps_ret]; apply _.
Qed.
End KeepsSame.

Ltac keeps_step :=
  match goal with
  | |- forall _, _ => intro
  | |- keeps _ (bind _ _) => apply keeps_bind; [apply _ | | ]
  | |- keeps _ (tryCatch _ _) => apply keeps_tryCatch; [apply _ | | ]
  | |- keeps _ (ret _) => apply keeps_ret; apply _
  | |- keeps _ (throw _) => apply keeps_throw; apply _
  | |- keeps _ (rethrow _) => apply keeps_rethrow; apply _
  | |- keeps _ (gets _) => apply keeps_gets; apply _
  | |- keeps _ (settle _) => apply keeps_settle; apply _
  | |- keeps _ (emit _) => apply keeps_emit; solve [auto]
  | |- keeps _ (validateDirectory _) => apply keeps_validateDirectory
  | |- keeps _ (getField _ _) => apply keeps_getField
  | |- keeps _ readSavedConfig => apply keeps_readSavedConfig
  | |- keeps _ (mkdirSync _) => apply keeps_mkdirSync; assumption
  | |- keeps _ (unlinkSync _) => apply keeps_unlinkSync; assumption
  | |- keeps _ (createWriteStream _) => apply keeps_createWriteStream; assumption
  | |- keeps _ (pump _ _ _ _) => apply keeps_pump; assumption
  | |- keeps _ (extract _ _ _) => apply keeps_extract; assumption
  | |- keeps _ (if ?b then _ else _) => destruct b
  | |- keeps _ (match ?x with _ => _ end) => destruct x
  end.

Ltac keeps_auto := cbv zeta; repeat (keeps_step; cbv zeta).

Section KeepsPipeline.
Context {B : Type} (f : World -> B).
Hypothesis Hnodes : ignoresNodes f.

Lemma keeps_getConfiguredLiveryDirectory :
  keeps (same f) getConfiguredLiveryDirectory.
Proof. unfold getConfiguredLiveryDirectory, jsOr. keeps_auto. Qed.

Lemma keeps_collectCookies (env : Env) (baseUrl : JsValue) :
  (forall u, quiet f (EvCookiesGet u)) ->
  keeps (same f) (collectCookies env baseUrl).
Proof. intros Hq. unfold collectCookies. keeps_auto. Qed.

Section Dialogs.
Hypothesis HopenDialog : forall p, quiet f (EvOpenDialog p).
Hypothesis HmessageBox : forall t, quiet f (EvMessageBox t).

Lemma keeps_selectDocumentsFolder (env : Env) :
  keeps (same f) (selectDocumentsFolder env).
Proof. unfold selectDocumentsFolder. keeps_auto. Qed.

Lemma keeps_promptForDirectory (env : Env) :
  keeps (same f) (promptForDirectory env).
Proof.
  unfold promptForDirectory.
  apply keeps_bind; [apply _ | apply keeps_selectDocumentsFolder |].
  keeps_auto.
Qed.
End Dialogs.

Section Network.
Hypothesis Hfetch : forall u c, quiet f (EvFetch u c).
Hypothesis Hsleep : forall ms, quiet f (EvSleep ms).

Lemma keeps_downloadAttempt (env : Env) (cookieString url destPath : string)
    (attempt : nat) :
  keeps (same f) (downloadAttempt env cookieString url destPath attempt).
Proof. unfold downloadAttempt. keeps_auto. Qed.

Lemma keeps_retryFrom (env : Env) (cookieString url destPath : string)
    (maxRetries remaining attempt : nat) :
  keeps (same f)
    (retryFrom env cookieString url destPath maxRetries remaining attempt).
Proof.
  revert attempt. induction remaining as [|remaining IH]; intros attempt; cbn.
  - apply keeps_ret. apply _.
  - apply keeps_bind; [apply _ | |].
    + apply keeps_tryCatch; [apply _ | |].
      * apply keeps_bind; [apply _ | apply keeps_downloadAttempt |].
        keeps_auto.
      * keeps_auto.
    + intros [p|]; [apply keeps_ret; apply _ | apply IH].
Qed.

Lemma keeps_installInto (env : Env) (eventId baseUrl documentsDir : JsValue) :
  (forall u, quiet f (EvCookiesGet u)) ->
  keeps (same f) (installInto env eventId baseUrl documentsDir).
Proof.
  intros Hq. unfold installInto. cbv zeta.
  apply keeps_bind; [apply _ | apply keeps_mkdirSync; assumption |]. intros _.
  apply keeps_bind; [apply _ | apply keeps_collectCookies; assumption |].
  intros cookieString.
  apply keeps_bind; [apply _ | apply keeps_retryFrom |]. intros _.
  keeps_auto.
Qed.
End Network.
End KeepsPipeline.

Lemma body_installInto (env : Env) (eventId baseUrl : JsValue) :
  downloadEventLiveriesBody env eventId baseUrl
  = ((if negb (truthy eventId) || negb (truthy baseUrl)
      then throw MSG_MISSING
      else ret tt) ;;;
     configured <- getConfiguredLiveryDirectory ;;
     documentsDir <-
       (if negb (truthy configured)
        then promptForDirectory env
        else
          valid <- validateDirectory configured ;;
          if negb valid
          then promptForDirectory env
          else ret configured) ;;
     installInto env eventId baseUrl documentsDir).
Proof. reflexivity. Qed.



(** ** The directory prompt *)

Lemma dialogDefaultPath_if (env : Env) (w : World) :
  (if match nodes w !! getAutoDetectDocumentsPath env with
      | Some Dir => true
      | _ => false
      end
   then getAutoDetectDocumentsPath env
   else homeDir env) = dialogDefaultPath env w.
Proof.
  unfold dialogDefaultPath.
  destruct (nodes w !! getAutoDetectDocumentsPath env) as [[|c]|]; reflexivity.
Qed.

(** How [selectDocumentsFolder] can return: canceled, after the folder
    dialog alone or after the confirmation too, with nothing but these in
    the trace; or with the [Customs] folder of the first path the dialog
    gave, which is then a directory. *)
Lemma selectDocumentsFolder_Return (env : Env) (w w' : World) (r : FolderResult) :
  selectDocumentsFolder env w = (Return r, w') ->
  r = folderCanceled
  /\ (w' = logged (EvOpenDialog (dialogDefaultPath env w)) w
      \/ w' = logged (EvMessageBox "Customs Folder Not Found")
                (logged (EvOpenDialog (dialogDefaultPath env w)) w))
  \/ exists res sel rest,
       showOpenDialog env (dialogDefaultPath env w) = inr res
       /\ dialogCanceled res = false
       /\ filePaths res = sel :: rest
       /\ r = mkFolderResult (JStr (pathJoin env sel "Customs")) false
       /\ nodes w' !! pathJoin env sel "Customs" = Some Dir.
Proof.
  unfold selectDocumentsFolder, tryCatch, bind, validateDirectory, gets, emit,
    modify, settle, mkdirSync, rethrow, throw, ret.
  cbv zeta beta. rewrite dialogDefaultPath_if.
  destruct (showOpenDialog env (dialogDefaultPath env w)) as [e|res] eqn:Hd;
    cbv beta iota; [discriminate|].
  destruct (filePaths res) as [|sel rest] eqn:Hp; cbv beta iota.
  { intros H. injection H as <- <-. left. split; [reflexivity | left; reflexivity]. }
  destruct (dialogCanceled res) eqn:Hc; cbv beta iota.
  { intros H. injection H as <- <-. left. split; [reflexivity | left; reflexivity]. }
  cbn [nodes].
  destruct (nodes w !! pathJoin env sel "Customs") as [[|c]|] eqn:E; cbv beta iota.
  - intros H. injection H as <- <-. right. exists res, sel, rest.
    repeat split; assumption.
  - destruct (showMessageBox env _) as [e|b]; cbv beta iota; [discriminate|].
    destruct (b =? 0); cbv beta iota.
    + cbn [uncreatable nodes].
      destruct (bool_decide _); cbv beta iota; [discriminate|].
      rewrite E. discriminate.
    + intros H. injection H as <- <-. left. split; [reflexivity | right; reflexivity].
  - destruct (showMessageBox env _) as [e|b]; cbv beta iota; [discriminate|].
    destruct (b =? 0); cbv beta iota.
    + cbn [uncreatable nodes].
      destruct (bool_decide _); cbv beta iota; [discriminate|].
      rewrite E. cbv beta iota.
      intros H. injection H as <- <-. right. exists res, sel, rest.
      repeat split; try assumption. apply lookup_insert_eq.
    + intros H. injection H as <- <-. left. split; [reflexivity | right; reflexivity].
Qed.

(** X11: when [selectDocumentsFolder] resolves to a selection, its [path] is
    [path.join] of the first path the folder dialog gave and [Customs], and
    that path is a directory by then, found there or just created. *)
Theorem selectDocumentsFolder_returns_directory (env : Env) (w w' : World)
    (r : FolderResult) :
  selectDocumentsFolder env w = (Return r, w') ->
  canceled r = false ->
  exists res sel rest,
    showOpenDialog env (dialogDefaultPath env w) = inr res
    /\ filePaths res = sel :: rest
    /\ path r = JStr (pathJoin env sel "Customs")
    /\ nodes w' !! pathJoin env sel "Customs" = Some Dir
    /\ validateDirectory (path r) w' = (Return true, w').
Proof.
  intros H Hc.
  destruct (selectDocumentsFolder_Return env w w' r H)
    as [[-> _] | (res & sel & rest & Hd & _ & Hp & -> & Hdir)]; [discriminate|].
  exists res, sel, rest. repeat split; [exact Hd | exact Hp | exact Hdir |].
  unfold validateDirectory, gets. cbn [path]. rewrite Hdir. reflexivity.
Qed.

Lemma selectDocumentsFolder_returns_directory_witness :
  exists res sel rest,
    showOpenDialog envPick (dialogDefaultPath envPick (worldPick None)) = inr res
    /\ filePaths res = sel :: rest
    /\ path (mkFolderResult (JStr "/home/u/ACC/Customs") false)
       = JStr (pathJoin envPick sel "Customs")
    /\ nodes (logged (EvOpenDialog "/home/u") (worldPick None))
         !! pathJoin envPick sel "Customs" = Some Dir
    /\ validateDirectory (path (mkFolderResult (JStr "/home/u/ACC/Customs") false))
         (logged (EvOpenDialog "/home/u") (worldPick None))
       = (Return true, logged (EvOpenDialog "/home/u") (worldPick None)).
Proof.
  apply (selectDocumentsFolder_returns_directory envPick (worldPick None)
           (logged (EvOpenDialog "/home/u") (worldPick None))
           (mkFolderResult (JStr "/home/u/ACC/Customs") false)).
  - vm_compute. reflexivity.
  - reflexivity.
Defined.

Lemma selectDocumentsFolder_cancel_eval (env : Env) (w : World)
    (res : OpenDialogResult) :
  showOpenDialog env (dialogDefaultPath env w) = inr res ->
  dialogCanceled res = true \/ filePaths res = [] ->
  selectDocumentsFolder env w
    = (Return folderCanceled, logged (EvOpenDialog (dialogDefaultPath env w)) w).
Proof.
  intros Hd Hc.
  unfold selectDocumentsFolder, tryCatch, bind, validateDirectory, gets, emit,
    modify, settle.
  cbv zeta beta. rewrite dialogDefaultPath_if, Hd.
  unfold ret at 1. cbv beta iota.
  destruct (filePaths res) as [|sel rest]; [reflexivity|].
  destruct Hc as [-> | Hc]; [reflexivity | discriminate].
Qed.

(** X12: when the folder dialog is canceled, or closes with no path,
    [selectDocumentsFolder] resolves to [{ canceled: true }]; that one dialog
    is all that happened. *)
Theorem selectDocumentsFolder_canceled (env : Env) (w : World)
    (res : OpenDialogResult) :
  showOpenDialog env (dialogDefaultPath env w) = inr res ->
  dialogCanceled res = true \/ filePaths res = [] ->
  selectDocumentsFolder env w
    = (Return folderCanceled, logged (EvOpenDialog (dialogDefaultPath env w)) w).
Proof.
  intros Hd Hc.
  unfold selectDocumentsFolder, tryCatch, bind, validateDirectory, gets, emit,
    modify, settle.
  cbv zeta beta. rewrite dialogDefaultPath_if, Hd.
  unfold ret at 1. cbv beta iota.
  destruct (filePaths res) as [|sel rest]; [reflexivity|].
  destruct Hc as [-> | Hc]; [reflexivity | discriminate].
Qed.

Lemma selectDocumentsFolder_canceled_witness :
  selectDocumentsFolder env500 worldConfigured
    = (Return folderCanceled,
       logged (EvOpenDialog (dialogDefaultPath env500 worldConfigured)) worldConfigured).
Proof.
  apply (selectDocumentsFolder_canceled env500 worldConfigured
           (mkOpenDialogResult true [])).
  - reflexivity.
  - left. reflexivity.
Defined.

(** X13: when the picked folder has no [Customs] directory and the user
    does not choose [Continue], [selectDocumentsFolder] resolves to
    [{ canceled: true }] and no directory has been created. *)
Theorem selectDocumentsFolder_declined (env : Env) (w : World)
    (res : OpenDialogResult) (sel : string) (rest : list string) (b : Z) :
  showOpenDialog env (dialogDefaultPath env w) = inr res ->
  dialogCanceled res = false ->
  filePaths res = sel :: rest ->
  nodes w !! pathJoin env sel "Customs" <> Some Dir ->
  showMessageBox env "Customs Folder Not Found" = inr b ->
  b <> 0 ->
  selectDocumentsFolder env w
    = (Return folderCanceled,
       logged (EvMessageBox "Customs Folder Not Found")
         (logged (EvOpenDialog (dialogDefaultPath env w)) w)).
Proof.
  intros Hd Hc Hp Hn Hm Hb.
  unfold selectDocumentsFolder, tryCatch, bind, validateDirectory, gets, emit,
    modify, settle.
  cbv zeta beta. rewrite dialogDefaultPath_if, Hd.
  unfold ret at 1. cbv beta iota. rewrite Hp, Hc. cbn [nodes].
  apply Z.eqb_neq in Hb.
  destruct (nodes w !! pathJoin env sel "Customs") as [[|c]|]; [congruence| |];
    cbv beta iota; rewrite Hm; unfold ret at 1; cbv beta iota; rewrite Hb;
    reflexivity.
Qed.

(** The user picks [/home/u/Other], which has no [Customs] folder, and then
    chooses [Cancel]. *)
Lemma selectDocumentsFolder_declined_witness :
  let env := mkEnv Linux "/home/u" "/tmp" posixJoin
               (fun _ => inr (mkOpenDialogResult false ["/home/u/Other"]))
               (fun _ => inr 1) (fun _ => inr [])
               (fun _ _ _ => inl (Error "fetch failed")) (fun _ _ => ([], None)) in
  selectDocumentsFolder env (worldPick None)
    = (Return folderCanceled,
       logged (EvMessageBox "Customs Folder Not Found")
         (logged (EvOpenDialog (dialogDefaultPath env (worldPick None)))
            (worldPick None))).
Proof.
  intros env.
  apply (selectDocumentsFolder_declined env (worldPick None)
           (mkOpenDialogResult false ["/home/u/Other"]) "/home/u/Other" [] 1).
  - reflexivity.
  - reflexivity.
  - reflexivity.
  - vm_compute. discriminate.
  - reflexivity.
  - lia.
Defined.

(** ** The [select-documents-folder] handler *)

Lemma selectDocumentsFolder_keeps_config (env : Env) (w : World) :
  let w1 := (selectDocumentsFolder env w).2 in
  configFile w1 = configFile w /\ configWritable w1 = configWritable w.
Proof.
  pose proof (keeps_selectDocumentsFolder
                (fun w0 => (configFile w0, configWritable w0))
                ltac:(intros n w0; reflexivity)
                ltac:(intros p w0; reflexivity)
                ltac:(intros t w0; reflexivity) env w) as H.
  unfold same in H. cbv zeta. injection H as -> ->. auto.
Qed.

(** X14: when the [select-documents-folder] handler resolves to a canceled
    result, the world is the one it started in with the folder dialog, or the
    folder dialog and the confirmation box, added to the trace: nothing else
    happened and nothing else changed. *)
Theorem select_documents_folder_canceled_changes_nothing (env : Env)
    (w w' : World) (r : FolderResult) :
  handle_select_documents_folder env w = (Return r, w') ->
  canceled r = true ->
  w' = logged (EvOpenDialog (dialogDefaultPath env w)) w
  \/ w' = logged (EvMessageBox "Customs Folder Not Found")
            (logged (EvOpenDialog (dialogDefaultPath env w)) w).
Proof.
  unfold handle_select_documents_folder. intros H Hc.
  apply bind_Return_inv in H as (r0 & w1 & Hsel & H).
  apply bind_Return_inv in H as ([] & w2 & Hsave & H).
  unfold ret in H. injection H as -> ->.
  rewrite Hc in Hsave. cbn [negb] in Hsave. unfold ret in Hsave.
  injection Hsave as <-.
  destruct (selectDocumentsFolder_Return env w w1 r Hsel)
    as [[_ Hw] | (res & sel & rest & _ & _ & _ & -> & _)];
    [exact Hw | discriminate].
Qed.

Lemma select_documents_folder_canceled_changes_nothing_witness :
  logged (EvOpenDialog (dialogDefaultPath env500 worldConfigured)) worldConfigured
    = logged (EvOpenDialog (dialogDefaultPath env500 worldConfigured)) worldConfigured
  \/ logged (EvOpenDialog (dialogDefaultPath env500 worldConfigured)) worldConfigured
    = logged (EvMessageBox "Customs Folder Not Found")
        (logged (EvOpenDialog (dialogDefaultPath env500 worldConfigured))
           worldConfigured).
Proof.
  apply (select_documents_folder_canceled_changes_nothing env500 worldConfigured
           (logged (EvOpenDialog (dialogDefaultPath env500 worldConfigured))
              worldConfigured)
           folderCanceled).
  - vm_compute. reflexivity.
  - reflexivity.
Defined.

(** X15: a selection that is made is stored under [documentsFolder] in the
    record that was there, every other field kept, and the handler resolves
    to the selection. *)
Theorem select_documents_folder_merges (env : Env) (w w1 : World)
    (r : FolderResult) (m : gmap string JsValue) :
  selectDocumentsFolder env w = (Return r, w1) ->
  canceled r = false ->
  storedRecord w = DObject m ->
  parsed m ->
  configWritable w = true ->
  handle_select_documents_folder env w
    = (Return r,
       setConfigFile (Some (Doc (DObject (<[ "documentsFolder" := path r ]> m)))) w1).
Proof.
  intros Hsel Hc Hs Hm Hw.
  destruct (selectDocumentsFolder_keeps_config env w) as [Hcf Hcw].
  rewrite Hsel in Hcf, Hcw. cbn [snd] in Hcf, Hcw.
  assert (Hs1 : storedRecord w1 = DObject m).
  { unfold storedRecord in *. rewrite Hcf. exact Hs. }
  assert (Hp : path r <> JUndefined).
  { destruct (selectDocumentsFolder_Return env w w1 r Hsel)
      as [[-> _] | (res & sel & rest & _ & _ & _ & -> & _)]; discriminate. }
  unfold handle_select_documents_folder. unfold bind at 1. rewrite Hsel, Hc.
  cbn [negb]. unfold bind at 1 2. rewrite readSavedConfig_total, Hs1.
  unfold setField, ret, bind, saveConfig, tryCatch, bind, writeConfigData.
  rewrite Hcw, Hw. unfold ret.
  rewrite (stringified_parsed _ (parsed_insert m _ (path r) Hm Hp)). reflexivity.
Qed.

Lemma select_documents_folder_merges_witness :
  handle_select_documents_folder envPick
      (worldPick (Some (Doc (DObject {[ "url" := JStr "https://example.org" ]}))))
    = (Return (mkFolderResult (JStr "/home/u/ACC/Customs") false),
       setConfigFile
         (Some (Doc (DObject
            (<[ "documentsFolder" := path (mkFolderResult (JStr "/home/u/ACC/Customs") false) ]>
               {[ "url" := JStr "https://example.org" ]}))))
         (logged (EvOpenDialog "/home/u")
            (worldPick (Some (Doc (DObject {[ "url" := JStr "https://example.org" ]})))))).
Proof.
  apply (select_documents_folder_merges envPick
           (worldPick (Some (Doc (DObject {[ "url" := JStr "https://example.org" ]}))))
           (logged (EvOpenDialog "/home/u")
              (worldPick (Some (Doc (DObject {[ "url" := JStr "https://example.org" ]})))))
           (mkFolderResult (JStr "/home/u/ACC/Customs") false)
           {[ "url" := JStr "https://example.org" ]}).
  - vm_compute. reflexivity.
  - reflexivity.
  - reflexivity.
  - apply parsed_insert; [exact parsed_empty | discriminate].
  - reflexivity.
Defined.

(** X16: over a configuration file that holds JSON [null], a selection that
    is made makes the handler throw: the assignment to [documentsFolder] is
    not guarded. *)
Theorem select_documents_folder_throws_on_null (env : Env) (w w1 : World)
    (r : FolderResult) :
  selectDocumentsFolder env w = (Return r, w1) ->
  canceled r = false ->
  configFile w = Some (Doc DNull) ->
  handle_select_documents_folder env w
    = (Throw (Error "Cannot set properties of null (setting 'documentsFolder')"), w1).
Proof.
  intros Hsel Hc Hn.
  destruct (selectDocumentsFolder_keeps_config env w) as [Hcf _].
  rewrite Hsel in Hcf. cbn [snd] in Hcf.
  unfold handle_select_documents_folder. unfold bind at 1. rewrite Hsel, Hc.
  cbn [negb]. unfold bind at 1 2. rewrite readSavedConfig_total.
  unfold storedRecord. rewrite Hcf, Hn. reflexivity.
Qed.

Lemma select_documents_folder_throws_on_null_witness :
  handle_select_documents_folder envPick (worldPick (Some (Doc DNull)))
    = (Throw (Error "Cannot set properties of null (setting 'documentsFolder')"),
       logged (EvOpenDialog "/home/u") (worldPick (Some (Doc DNull)))).
Proof.
  apply (select_documents_folder_throws_on_null envPick
           (worldPick (Some (Doc DNull)))
           (logged (EvOpenDialog "/home/u") (worldPick (Some (Doc DNull))))
           (mkFolderResult (JStr "/home/u/ACC/Customs") false)).
  - vm_compute. reflexivity.
  - reflexivity.
  - reflexivity.
Defined.

(** ** The download handler and its directory *)

Lemma getConfiguredLiveryDirectory_truthy (w w' : World) (v : JsValue) :
  getConfiguredLiveryDirectory w = (Return v, w') ->
  v = JNull \/ truthy v = true.
Proof.
  unfold getConfiguredLiveryDirectory, bind.
  rewrite readSavedConfig_total.
  destruct (storedRecord w) as [m| |]; unfold getField, ret, throw, jsOr;
    cbv beta iota; [| discriminate | cbn; intros H; injection H as <- _; auto].
  destruct (truthy (default JUndefined (m !! "liveryDirectory"))) eqn:E1;
    cbv beta iota.
  - intros H. injection H as <- _. auto.
  - destruct (truthy (default JUndefined (m !! "documentsFolder"))) eqn:E2;
      intros H; injection H as <- _; auto.
Qed.

Lemma dialogs_logged_quiet (e : Event) (w : World) :
  match e with EvOpenDialog _ | EvMessageBox _ => False | _ => True end ->
  dialogs (trace (logged e w)) = dialogs (trace w).
Proof.
  intros He. unfold dialogs. cbn [trace logged]. rewrite omap_app.
  destruct e; try contradiction; cbn; apply app_nil_r.
Qed.

(** With a configured directory that is one, the handler goes straight from
    the validation to [fs.mkdirSync]. *)
Lemma handler_configured (env : Env) (eventId baseUrl : JsValue) (w : World)
    (d : string) :
  truthy eventId = true ->
  truthy baseUrl = true ->
  getConfiguredLiveryDirectory w = (Return (JStr d), w) ->
  nodes w !! d = Some Dir ->
  handle_download_event_liveries env eventId baseUrl w
    = tryCatch (installInto env eventId baseUrl (JStr d))
        (fun error => ret (mkResult false (message error) None)) w.
Proof.
  intros He Hb Hg Hd.
  destruct (getConfiguredLiveryDirectory_truthy w w (JStr d) Hg) as [Hn | Ht];
    [discriminate|].
  unfold handle_download_event_liveries, tryCatch. rewrite body_installInto.
  unfold bind at 1. rewrite He, Hb. cbn [negb orb]. unfold ret at 1.
  unfold bind at 1. rewrite Hg. rewrite Ht. cbn [negb].
  unfold bind at 1. unfold bind at 1.
  unfold validateDirectory, gets. rewrite Hd. cbn [negb]. reflexivity.
Qed.

(** X17: with a configured directory that exists, the handler shows no
    dialog, whatever the download and the extraction then do. *)
Theorem configured_directory_no_prompt (env : Env) (eventId baseUrl : JsValue)
    (w : World) (d : string) :
  truthy eventId = true ->
  truthy baseUrl = true ->
  getConfiguredLiveryDirectory w = (Return (JStr d), w) ->
  nodes w !! d = Some Dir ->
  dialogs (trace (handle_download_event_liveries env eventId baseUrl w).2)
    = dialogs (trace w).
Proof.
  intros He Hb Hg Hd.
  rewrite (handler_configured env eventId baseUrl w d He Hb Hg Hd).
  assert (Hk : keeps (same (fun w0 => dialogs (trace w0)))
                 (tryCatch (installInto env eventId baseUrl (JStr d))
                    (fun error => ret (mkResult false (message error) None)))).
  { apply keeps_tryCatch; [apply _ | | keeps_auto].
    apply keeps_installInto.
    - intros n w0. reflexivity.
    - intros u c w0. apply dialogs_logged_quiet. exact I.
    - intros ms w0. apply dialogs_logged_quiet. exact I.
    - intros u w0. apply dialogs_logged_quiet. exact I. }
  exact (Hk w).
Qed.

Lemma configured_directory_no_prompt_witness :
  dialogs (trace (handle_download_event_liveries envGood (JStr "42")
                    (JStr "https://example.org") worldConfigured).2)
    = dialogs (trace worldConfigured).
Proof.
  apply (configured_directory_no_prompt envGood (JStr "42")
           (JStr "https://example.org") worldConfigured "/acc/Customs").
  - reflexivity.
  - reflexivity.
  - vm_compute. reflexivity.
  - vm_compute. reflexivity.
Defined.

(** Without a usable configured directory the handler prompts. *)
Lemma handler_prompts (env : Env) (eventId baseUrl : JsValue) (w : World) :
  truthy eventId = true ->
  truthy baseUrl = true ->
  needsPrompt w ->
  handle_download_event_liveries env eventId baseUrl w
    = tryCatch
        (documentsDir <- promptForDirectory env ;;
         installInto env eventId baseUrl documentsDir)
        (fun error => ret (mkResult false (message error) None)) w.
Proof.
  intros He Hb (v & Hg & Hv).
  unfold handle_download_event_liveries, tryCatch. rewrite body_installInto.
  unfold bind at 1. rewrite He, Hb. cbn [negb orb]. unfold ret at 1.
  unfold bind at 1. rewrite Hg.
  destruct (truthy v) eqn:Ht; cbn [negb].
  - destruct Hv as [Hv | Hv]; [discriminate|].
    unfold bind. rewrite Hv. reflexivity.
  - reflexivity.
Qed.

(** X18: without a usable configured directory, canceling the folder dialog
    ends the call with [No directory selected for liveries extraction]: the
    dialog is all that happened, no request was sent and nothing was
    created. *)
Theorem prompt_canceled_no_download (env : Env) (eventId baseUrl : JsValue)
    (w : World) (res : OpenDialogResult) :
  truthy eventId = true ->
  truthy baseUrl = true ->
  needsPrompt w ->
  showOpenDialog env (dialogDefaultPath env w) = inr res ->
  dialogCanceled res = true \/ filePaths res = [] ->
  handle_download_event_liveries env eventId baseUrl w
    = (Return (mkResult false MSG_NO_DIRECTORY None),
       logged (EvOpenDialog (dialogDefaultPath env w)) w).
Proof.
  intros He Hb Hp Hd Hc.
  rewrite (handler_prompts env eventId baseUrl w He Hb Hp).
  unfold tryCatch, bind at 1, promptForDirectory, bind at 1.
  rewrite (selectDocumentsFolder_cancel_eval env w res Hd Hc). reflexivity.
Qed.

Lemma prompt_canceled_no_download_witness :
  handle_download_event_liveries env500 (JStr "42") (JStr "https://example.org")
      (worldPick None)
    = (Return (mkResult false MSG_NO_DIRECTORY None),
       logged (EvOpenDialog (dialogDefaultPath env500 (worldPick None)))
         (worldPick None)).
Proof.
  apply (prompt_canceled_no_download env500 (JStr "42") (JStr "https://example.org")
           (worldPick None) (mkOpenDialogResult true [])).
  - reflexivity.
  - reflexivity.
  - exists JNull. split; [vm_compute; reflexivity | left; reflexivity].
  - reflexivity.
  - left. reflexivity.
Defined.

(** X19: when the folder dialog itself fails, the handler resolves to a
    failure whose message is that error behind [Failed to select documents
    folder: ]; no request was sent and nothing was created. *)
Theorem prompt_error_is_reported (env : Env) (eventId baseUrl : JsValue)
    (w : World) (e : JsError) :
  truthy eventId = true ->
  truthy baseUrl = true ->
  needsPrompt w ->
  showOpenDialog env (dialogDefaultPath env w) = inl e ->
  handle_download_event_liveries env eventId baseUrl w
    = (Return (mkResult false
                 ("Failed to select documents folder: " ++ message e) None),
       logged (EvOpenDialog (dialogDefaultPath env w)) w).
Proof.
  intros He Hb Hp Hd.
  rewrite (handler_prompts env eventId baseUrl w He Hb Hp).
  unfold tryCatch at 1, bind at 1, promptForDirectory, bind at 1.
  unfold selectDocumentsFolder, tryCatch, bind, validateDirectory, gets, emit,
    modify, settle.
  cbv zeta beta. rewrite dialogDefaultPath_if, Hd. reflexivity.
Qed.

Lemma prompt_error_is_reported_witness :
  let env := mkEnv Linux "/home/u" "/tmp" posixJoin
               (fun _ => inl (Error "dialog unavailable"))
               (fun _ => inr 1) (fun _ => inr [])
               (fun _ _ _ => inl (Error "fetch failed")) (fun _ _ => ([], None)) in
  handle_download_event_liveries env (JStr "42") (JStr "https://example.org")
      (worldPick None)
    = (Return (mkResult false
                 ("Failed to select documents folder: "
                  ++ message (Error "dialog unavailable")) None),
       logged (EvOpenDialog (dialogDefaultPath env (worldPick None))) (worldPick None)).
Proof.
  intros env.
  apply (prompt_error_is_reported env (JStr "42") (JStr "https://example.org")
           (worldPick None) (Error "dialog unavailable")).
  - reflexivity.
  - reflexivity.
  - exists JNull. split; [vm_compute; reflexivity | left; reflexivity].
  - reflexivity.
Defined.

(** ** One download attempt *)

Lemma prefix_append (a b : string) : String.prefix a (a ++ b) = true.
Proof.
  induction a as [|c a IH]; [destruct b; reflexivity|].
  change (String.prefix (String c a) (String c (a ++ b)) = true).
  cbn [String.prefix]. destruct (ascii_dec c c); [exact IH | congruence].
Qed.

(** X22: a response that is not 2xx makes the attempt throw without touching
    the filesystem; the message starts with [Authentication required: ] for
    401 and 403, [File not found: ] for 404 and [Failed to download: ] for
    every other status. *)
Theorem downloadAttempt_status_errors (env : Env)
    (cookieString url destPath : string) (attempt : nat) (w : World)
    (response : Response) :
  fetch env attempt url (cookieHeader cookieString) = inr response ->
  ok response = false ->
  exists msg,
    downloadAttempt env cookieString url destPath attempt w
      = (Throw (Error msg), logged (EvFetch url (cookieHeader cookieString)) w)
    /\ String.prefix
         (if (status response =? 401) || (status response =? 403)
          then "Authentication required: "
          else if status response =? 404 then "File not found: "
          else "Failed to download: ") msg = true.
Proof.
  intros Hf Hok.
  unfold downloadAttempt, bind, emit, modify, settle. rewrite Hf.
  unfold ret at 1. cbv beta iota. rewrite Hok. cbn [negb].
  destruct ((status response =? 401) || (status response =? 403));
    [|destruct (status response =? 404)];
    eexists; (split; [reflexivity|]); apply prefix_append.
Qed.

Lemma downloadAttempt_status_errors_witness :
  exists msg,
    downloadAttempt env500 "" liveriesUrl archive42 1 worldConfigured
      = (Throw (Error msg), logged (EvFetch liveriesUrl (cookieHeader "")) worldConfigured)
    /\ String.prefix
         (if (status (mkResponse 500 "Internal Server Error" None None [] None) =? 401)
             || (status (mkResponse 500 "Internal Server Error" None None [] None) =? 403)
          then "Authentication required: "
          else if status (mkResponse 500 "Internal Server Error" None None [] None) =? 404
               then "File not found: "
               else "Failed to download: ") msg = true.
Proof.
  apply (downloadAttempt_status_errors env500 "" liveriesUrl archive42 1%nat
           worldConfigured
           (mkResponse 500 "Internal Server Error" None None [] None)).
  - reflexivity.
  - reflexivity.
Defined.

(** ** The retry loop, for any number of attempts *)

Lemma retryTrace_step (request : Event) (attempt remaining : nat) :
  retryTrace request attempt (S (S remaining))
    = request :: EvSleep (2 ^ Z.of_nat attempt * 1000)
        :: retryTrace request (S attempt) (S remaining).
Proof. reflexivity. Qed.



Lemma requests_retryTrace (url : string) (cookie : option string)
    (remaining attempt : nat) :
  requests (retryTrace (EvFetch url cookie) attempt remaining)
    = replicate remaining url.
Proof.
  revert attempt. induction remaining as [|remaining IH]; intros attempt;
    [reflexivity|].
  destruct remaining as [|remaining']; [reflexivity|].
  rewrite retryTrace_step.
  change (url :: requests (retryTrace (EvFetch url cookie) (S attempt) (S remaining'))
          = url :: replicate (S remaining') url).
  rewrite (IH (S attempt)). reflexivity.
Qed.

Lemma sleeps_retryTrace (url : string) (cookie : option string)
    (remaining attempt : nat) :
  sleeps (retryTrace (EvFetch url cookie) attempt remaining)
    = (fun k => 2 ^ Z.of_nat k * 1000) <$> seq attempt (remaining - 1).
Proof.
  revert attempt. induction remaining as [|remaining IH]; intros attempt;
    [reflexivity|].
  destruct remaining as [|remaining']; [reflexivity|].
  rewrite retryTrace_step.
  change (2 ^ Z.of_nat attempt * 1000
            :: sleeps (retryTrace (EvFetch url cookie) (S attempt) (S remaining'))
          = (fun k => 2 ^ Z.of_nat k * 1000) <$> seq attempt (S (S remaining') - 1)).
  rewrite (IH (S attempt)).
  replace (S (S remaining') - 1)%nat with (S (S remaining' - 1)) by lia.
  reflexivity.
Qed.



(** What [retryTrace] looks like for a budget of four. *)
Lemma retryTrace_four (request : Event) :
  retryTrace request 1 4
  = [request; EvSleep 2000; request; EvSleep 4000; request; EvSleep 8000; request].
Proof. reflexivity. Qed.

(** X24: the loop stops at the first attempt that works: after a failed
    first attempt and the 2000 ms wait, a second attempt that returns ends
    the call with its path, and no third request is made. *)
Theorem retry_recovers (env : Env) (cookieString url destPath : string)
    (w w1 w2 : World) (e : JsError) (p : string) :
  downloadAttempt env cookieString url destPath 1 w = (Throw e, w1) ->
  downloadAttempt env cookieString url destPath 2 (logged (EvSleep 2000) w1)
    = (Return p, w2) ->
  downloadFileWithRetry env cookieString url destPath 3 w = (Return (Some p), w2).
Proof.
  intros H1 H2.
  unfold downloadFileWithRetry. cbn [retryFrom]. unfold tryCatch, bind.
  rewrite H1. cbn [Nat.eqb]. unfold emit, modify, ret. cbv beta iota.
  change (2 ^ Z.of_nat 1 * 1000) with 2000.
  change (mkWorld (configFile w1) (configWritable w1) (nodes w1) (undeletable w1)
            (uncreatable w1) (mainWindow w1) (configWindow w1)
            (trace w1 ++ [EvSleep 2000]))
    with (logged (EvSleep 2000) w1).
  rewrite H2. reflexivity.
Qed.

(** The first request is answered 503, the second with the archive. *)
Lemma retry_recovers_witness :
  let env := mkEnv Linux "/home/u" "/tmp" posixJoin
               (fun _ => inr (mkOpenDialogResult true []))
               (fun _ => inr 1) (fun _ => inr [])
               (fun k _ _ =>
                  match k with
                  | 1%nat => inr (mkResponse 503 "Service Unavailable" None None [] None)
                  | _ => inr (mkResponse 200 "OK" (Some "application/zip") None ["PK"] None)
                  end)
               (fun _ _ => ([], None)) in
  let w1 := logged (EvFetch liveriesUrl None) worldConfigured in
  let w2 := setNodes (<[archive42 := File "PK"]> (nodes worldConfigured))
              (logged (EvFetch liveriesUrl None) (logged (EvSleep 2000) w1)) in
  downloadFileWithRetry env "" liveriesUrl archive42 3 worldConfigured
    = (Return (Some archive42), w2).
Proof.
  intros env w1 w2.
  apply (retry_recovers env "" liveriesUrl archive42 worldConfigured w1 w2
           (Error "Failed to download: 503 Service Unavailable") archive42).
  - vm_compute. reflexivity.
  - vm_compute. reflexivity.
Defined.

(** ** How many requests a call sends, and where *)

Lemma keeps_bind_seq {A B} (R1 R2 R3 : World -> World -> Prop)
    (m : M A) (k : A -> M B) :
  (forall w1 w2, R1 w1 w2 -> R3 w1 w2) ->
  (forall w1 w2 w3, R1 w1 w2 -> R2 w2 w3 -> R3 w1 w3) ->
  keeps R1 m -> (forall a, keeps R2 (k a)) -> keeps R3 (bind m k).
Proof.
  intros H13 H123 Hm Hk w. unfold bind. specialize (Hm w).
  destruct (m w) as [[e|a|] w1]; cbn in *;
    [apply H13; exact Hm| |apply H13; exact Hm].
  eapply H123; [exact Hm | apply Hk].
Qed.

Lemma keeps_tryCatch_seq {A} (R1 R2 R3 : World -> World -> Prop)
    (m : M A) (h : JsError -> M A) :
  (forall w1 w2, R1 w1 w2 -> R3 w1 w2) ->
  (forall w1 w2 w3, R1 w1 w2 -> R2 w2 w3 -> R3 w1 w3) ->
  keeps R1 m -> (forall e, keeps R2 (h e)) -> keeps R3 (tryCatch m h).
Proof.
  intros H13 H123 Hm Hh w. unfold tryCatch. specialize (Hm w).
  destruct (m w) as [[e|a|] w1]; cbn in *;
    [|apply H13; exact Hm|apply H13; exact Hm].
  eapply H123; [exact Hm | apply Hh].
Qed.

Lemma sends_refl (k : nat) (url : string) (w : World) : sends k url w w.
Proof. exists 0%nat. split; [lia | symmetry; apply app_nil_r]. Qed.

Lemma same_sends (k : nat) (url : string) (w1 w2 : World) :
  same requested w1 w2 -> sends k url w1 w2.
Proof.
  intros H. exists 0%nat. split; [lia|]. rewrite H. symmetry. apply app_nil_r.
Qed.

Lemma same_then_sends (k : nat) (url : string) (w1 w2 w3 : World) :
  same requested w1 w2 -> sends k url w2 w3 -> sends k url w1 w3.
Proof. intros H (j & Hj & E). exists j. rewrite <- H. auto. Qed.

Lemma sends_then_same (k : nat) (url : string) (w1 w2 w3 : World) :
  sends k url w1 w2 -> same requested w2 w3 -> sends k url w1 w3.
Proof. intros (j & Hj & E) H. exists j. rewrite H. auto. Qed.

Lemma sends_then_sends (j k : nat) (url : string) (w1 w2 w3 : World) :
  sends j url w1 w2 -> sends k url w2 w3 -> sends (j + k) url w1 w3.
Proof.
  intros (a & Ha & Ea) (b & Hb & Eb). exists (a + b)%nat. split; [lia|].
  rewrite Eb, Ea, <- app_assoc, replicate_add. reflexivity.
Qed.

Lemma sends_weaken (j k : nat) (url : string) (w1 w2 : World) :
  (j <= k)%nat -> sends j url w1 w2 -> sends k url w1 w2.
Proof. intros Hjk (a & Ha & Ea). exists a. split; [lia | exact Ea]. Qed.

Lemma requested_quiet (e : Event) :
  match e with EvFetch _ _ => False | _ => True end -> quiet requested e.
Proof.
  intros He w. unfold requested, requests. cbn [trace logged]. rewrite omap_app.
  destruct e; try contradiction; cbn; apply app_nil_r.
Qed.

Lemma requested_ignoresNodes : ignoresNodes requested.
Proof. intros n w. reflexivity. Qed.

Lemma downloadAttempt_sends (env : Env) (cookieString url destPath : string)
    (attempt : nat) :
  keeps (sends 1 url) (downloadAttempt env cookieString url destPath attempt).
Proof.
  pose proof requested_ignoresNodes as Hnodes.
  unfold downloadAttempt.
  apply (keeps_bind_seq (sends 1 url) (same requested) (sends 1 url)).
  - auto.
  - apply sends_then_same.
  - apply keeps_modify. intros w. exists 1%nat. split; [lia|].
    unfold requested, requests. cbn [trace]. rewrite omap_app. reflexivity.
  - intros _. keeps_auto.
Qed.

Lemma retryFrom_sends (env : Env) (cookieString url destPath : string)
    (maxRetries remaining attempt : nat) :
  keeps (sends remaining url)
    (retryFrom env cookieString url destPath maxRetries remaining attempt).
Proof.
  revert attempt. induction remaining as [|remaining IH]; intros attempt;
    cbn [retryFrom].
  - intros w. apply sends_refl.
  - apply (keeps_bind_seq (sends 1 url) (sends remaining url)
             (sends (S remaining) url)).
    + intros w1 w2. apply sends_weaken. lia.
    + intros w1 w2 w3. apply (sends_then_sends 1 remaining).
    + apply (keeps_tryCatch_seq (sends 1 url) (same requested) (sends 1 url)).
      * auto.
      * apply sends_then_same.
      * apply (keeps_bind_seq (sends 1 url) (same requested) (sends 1 url));
          [auto | apply sends_then_same | apply downloadAttempt_sends |].
        intros p. apply keeps_ret. apply _.
      * intros e. destruct (attempt =? maxRetries)%nat; [apply keeps_throw; apply _|].
        apply keeps_bind; [apply _ | | intros _; apply keeps_ret; apply _].
        apply keeps_emit. apply requested_quiet. exact I.
    + intros [p|]; [intros w; apply sends_refl | apply IH].
Qed.

Lemma installInto_sends (env : Env) (eventId baseUrl documentsDir : JsValue) :
  keeps (sends 3 (toStr baseUrl ++ "/events/" ++ toStr eventId ++ "/liveries"))
    (installInto env eventId baseUrl documentsDir).
Proof.
  pose proof requested_ignoresNodes as Hnodes.
  set (url := toStr baseUrl ++ "/events/" ++ toStr eventId ++ "/liveries").
  unfold installInto. cbv zeta. fold url.
  apply (keeps_bind_seq (same requested) (sends 3 url) (sends 3 url));
    [apply same_sends | apply same_then_sends
    | apply keeps_mkdirSync; exact Hnodes |].
  intros _.
  apply (keeps_bind_seq (same requested) (sends 3 url) (sends 3 url));
    [apply same_sends | apply same_then_sends | |].
  { apply keeps_collectCookies. intros u. apply requested_quiet. exact I. }
  intros cookieString.
  apply (keeps_bind_seq (sends 3 url) (same requested) (sends 3 url));
    [auto | apply sends_then_same | apply retryFrom_sends |].
  intros _. keeps_auto.
Qed.

(** X25: for an [eventId] and a [baseUrl] that are strings, safe integers
    or other primitives, one call of the download handler sends at most three
    requests, and every one of them goes to
    [baseUrl/events/eventId/liveries]. *)
Theorem download_handler_requests (env : Env) (eventId baseUrl : JsValue)
    (w : World) :
  safeInteger eventId ->
  safeInteger baseUrl ->
  exists j,
    (j <= 3)%nat
    /\ requests (trace (handle_download_event_liveries env eventId baseUrl w).2)
       = (requests (trace w)
          ++ replicate j (toStr baseUrl ++ "/events/" ++ toStr eventId ++ "/liveries")%string)%list.
Proof.
  intros _ _.
  pose proof requested_ignoresNodes as Hnodes.
  set (url := toStr baseUrl ++ "/events/" ++ toStr eventId ++ "/liveries").
  assert (Hk : keeps (sends 3 url)
                 (handle_download_event_liveries env eventId baseUrl)).
  { unfold handle_download_event_liveries.
    apply (keeps_tryCatch_seq (sends 3 url) (same requested) (sends 3 url));
      [auto | apply sends_then_same | | intros e; apply keeps_ret; apply _].
    rewrite body_installInto.
    apply (keeps_bind_seq (same requested) (sends 3 url) (sends 3 url));
      [apply same_sends | apply same_then_sends | keeps_auto |].
    intros _.
    apply (keeps_bind_seq (same requested) (sends 3 url) (sends 3 url));
      [apply same_sends | apply same_then_sends
      | apply keeps_getConfiguredLiveryDirectory; exact Hnodes |].
    intros configured.
    apply (keeps_bind_seq (same requested) (sends 3 url) (sends 3 url));
      [apply same_sends | apply same_then_sends | |
       intros d; apply installInto_sends].
    assert (Hp : keeps (same requested) (promptForDirectory env)).
    { apply keeps_promptForDirectory; [exact Hnodes | |];
        intros x; apply requested_quiet; exact I. }
    destruct (negb (truthy configured)); [exact Hp|].
    apply keeps_bind; [apply _ | apply keeps_validateDirectory |].
    intros valid. destruct (negb valid); [exact Hp | apply keeps_ret; apply _]. }
  exact (Hk w).
Qed.

Lemma download_handler_requests_witness :
  exists j,
    (j <= 3)%nat
    /\ requests (trace (handle_download_event_liveries env500 (JNum 42)
                          (JStr "https://example.org") worldConfigured).2)
       = (requests (trace worldConfigured)
          ++ replicate j (toStr (JStr "https://example.org") ++ "/events/"
                          ++ toStr (JNum 42) ++ "/liveries")%string)%list.
Proof.
  apply (download_handler_requests env500 (JNum 42) (JStr "https://example.org")
           worldConfigured).
  - cbn. lia.
  - exact I.
Defined.

(** ** Cookies *)

(** X26: collecting the session cookies never throws, even when the cookie
    jar rejects, and changes nothing but the trace; without a live main
    window the jar is not asked and the cookie string is empty. *)
Theorem collectCookies_never_throws (env : Env) (baseUrl : JsValue) (w : World) :
  exists s w',
    collectCookies env baseUrl w = (Return s, w')
    /\ untraced w' = untraced w
    /\ (mainWindow w = None \/ (exists win, mainWindow w = Some win /\ destroyed win = true)
        -> s = "" /\ w' = w).
Proof.
  unfold collectCookies, bind, gets, tryCatch, emit, modify, settle.
  destruct (mainWindow w) as [win|] eqn:Hw.
  - destruct (destroyed win) eqn:Hd; cbn [negb].
    + eexists _, _. split; [reflexivity|]. split; [reflexivity | auto].
    + destruct (cookiesGet env (toStr baseUrl)) as [e|cookies];
        (eexists _, _; split; [reflexivity|]; split; [reflexivity|]);
        intros [Hn | (win' & Hw' & Hd')]; [discriminate | congruence
                                          | discriminate | congruence].
  - eexists _, _. split; [reflexivity|]. split; [reflexivity | auto].
Qed.

(** ** The configuration handlers and the windows *)

Lemma saveConfig_writes (config : Data) (w : World) :
  configWritable w = true ->
  saveConfig config w
    = (Return true, setConfigFile (Some (Doc (stringified config))) w).
Proof. intros Hw. unfold_js. rewrite Hw. reflexivity. Qed.

(** The URL a window is loaded with from the stored record [m]. *)
Lemma readSavedUrl_record (m : gmap string JsValue) (w : World) :
  configFile w = Some (Doc (DObject m)) ->
  readSavedUrl w
    = (Return (jsOr (default JUndefined (m !! "url")) (JStr DEFAULT_URL)), w).
Proof.
  intros Hc. rewrite readSavedUrl_eval. unfold urlField, jsOr. rewrite Hc.
  destruct (m !! "url") as [v|]; reflexivity.
Qed.

(** X28: [config-saved] merges the URL into the stored record, every other
    field kept; it then loads the main window with the URL [readSavedUrl]
    gives (the default one for an empty URL), reusing the window when there
    is one and creating it otherwise, and closes the configuration
    window. *)
Theorem config_saved_merges (url : JsValue) (w : World)
    (m : gmap string JsValue) :
  storedRecord w = DObject m ->
  parsed m ->
  configWritable w = true ->
  url <> JUndefined ->
  handle_config_saved url w
    = (Return true,
       setConfigWindow None
         (setMainWindow
            (Some (mkWindow (toStr (jsOr url (JStr DEFAULT_URL)))
                     (match mainWindow w with Some win => visible win | None => true end)
                     (match mainWindow w with Some win => destroyed win | None => false end)))
            (setConfigFile (Some (Doc (DObject (<[ "url" := url ]> m)))) w))).
Proof.
  intros Hs Hm Hw Hu.
  unfold handle_config_saved. unfold bind at 1.
  rewrite readSavedConfig_total, Hs. unfold setField. unfold bind at 1, ret at 1.
  unfold bind at 1. rewrite (saveConfig_writes _ w Hw).
  rewrite (stringified_parsed _ (parsed_insert m _ url Hm Hu)).
  set (w1 := setConfigFile (Some (Doc (DObject (<[ "url" := url ]> m)))) w).
  assert (Hurl : readSavedUrl w1 = (Return (jsOr url (JStr DEFAULT_URL)), w1)).
  { rewrite (readSavedUrl_record (<[ "url" := url ]> m) w1 eq_refl).
    rewrite lookup_insert_eq. reflexivity. }
  unfold bind at 1. unfold bind at 1. unfold bind at 1. unfold gets at 1.
  change (mainWindow w1) with (mainWindow w).
  destruct (mainWindow w) as [win|] eqn:Hmw.
  - unfold reloadMainWindow, bind, gets.
    change (mainWindow w1) with (mainWindow w). rewrite Hmw, Hurl. reflexivity.
  - unfold createMainWindow, bind. rewrite Hurl. reflexivity.
Qed.

Lemma config_saved_merges_witness :
  handle_config_saved (JStr "https://example.org")
      (worldWithConfig (Some (Doc (DObject {[ "documentsFolder" := JStr "/old" ]}))))
    = (Return true,
       setConfigWindow None
         (setMainWindow
            (Some (mkWindow (toStr (jsOr (JStr "https://example.org") (JStr DEFAULT_URL)))
                     true false))
            (setConfigFile
               (Some (Doc (DObject (<[ "url" := JStr "https://example.org" ]>
                                      {[ "documentsFolder" := JStr "/old" ]}))))
               (worldWithConfig
                  (Some (Doc (DObject {[ "documentsFolder" := JStr "/old" ]}))))))).
Proof.
  apply (config_saved_merges (JStr "https://example.org")
           (worldWithConfig (Some (Doc (DObject {[ "documentsFolder" := JStr "/old" ]}))))
           {[ "documentsFolder" := JStr "/old" ]}).
  - reflexivity.
  - apply parsed_insert; [exact parsed_empty | discriminate].
  - reflexivity.
  - discriminate.
Defined.

(** X29: when the configuration cannot be written, [config-saved] answers
    [false] and nothing has happened: no window is created, loaded or
    closed. *)
Theorem config_saved_unwritable (url : JsValue) (w : World) :
  configWritable w = false ->
  configFile w <> Some (Doc DNull) ->
  handle_config_saved url w = (Return false, w).
Proof.
  intros Hw Hn.
  unfold handle_config_saved. unfold bind at 1.
  rewrite readSavedConfig_total. unfold storedRecord.
  destruct (configFile w) as [[| |[m| |]]|]; try congruence;
    unfold setField; unfold bind at 1, ret at 1; unfold bind at 1;
    unfold saveConfig, tryCatch, bind, writeConfigData; rewrite Hw; reflexivity.
Qed.

Lemma config_saved_unwritable_witness :
  handle_config_saved (JStr "https://example.org")
      (mkWorld None false ∅ ∅ ∅ None None [])
    = (Return false, mkWorld None false ∅ ∅ ∅ None None []).
Proof.
  apply (config_saved_unwritable (JStr "https://example.org")
           (mkWorld None false ∅ ∅ ∅ None None [])).
  - reflexivity.
  - discriminate.
Defined.

(** X30: the tray's [Show App] ends with the main window visible, from
    hidden or from no window at all; a hidden window keeps what it had
    loaded, and neither the configuration nor the configuration window is
    touched. *)
Theorem tray_shows_main_window (w : World) :
  (forall win, mainWindow w = Some win -> destroyed win = false) ->
  exists w',
    trayShowApp w = (Return tt, w')
    /\ stateOf w' = MainVisible
    /\ configFile w' = configFile w
    /\ configWindow w' = configWindow w
    /\ (forall win, mainWindow w = Some win ->
          mainWindow w' = Some (mkWindow (loaded win) true false)).
Proof.
  intros Hlive. unfold trayShowApp, bind, gets.
  destruct (mainWindow w) as [win|] eqn:Hw.
  - unfold showWindow. rewrite (Hlive win eq_refl). unfold modify.
    eexists. split; [reflexivity|]. repeat split.
    intros win' Hw'. injection Hw' as <-. reflexivity.
  - unfold createMainWindow, bind. rewrite readSavedUrl_eval. unfold modify.
    eexists. split; [reflexivity|]. repeat split. discriminate.
Qed.

Lemma tray_shows_main_window_witness :
  exists w',
    trayShowApp (setMainWindow (Some (mkWindow "https://example.org" false false))
                   (worldWithConfig None)) = (Return tt, w')
    /\ stateOf w' = MainVisible
    /\ configFile w'
       = configFile (setMainWindow (Some (mkWindow "https://example.org" false false))
                       (worldWithConfig None))
    /\ configWindow w'
       = configWindow (setMainWindow (Some (mkWindow "https://example.org" false false))
                         (worldWithConfig None))
    /\ (forall win,
          mainWindow (setMainWindow (Some (mkWindow "https://example.org" false false))
                        (worldWithConfig None)) = Some win ->
          mainWindow w' = Some (mkWindow (loaded win) true false)).
Proof.
  apply (tray_shows_main_window
           (setMainWindow (Some (mkWindow "https://example.org" false false))
              (worldWithConfig None))).
  intros win H. injection H as <-. reflexivity.
Defined.
